(** * AzureBlobGPT-AgentRead: the blob agent and its connection test

    A shallow embedding of [src/blob_agent.py] and [src/test_openai.py].
    The two scripts are glue around external collaborators (the Azure
    storage SDK, pandas, the Semantic Kernel chat service).  Those
    collaborators are Section variables; everything the repository's own
    code does around them (environment checks, [try]/[except] handlers,
    message formatting, the chat loop) is translated line by line. *)

From Stdlib Require Import String Ascii List ZArith Lia Bool.
From stdpp Require Import base gmap strings list.

(** ** Python values shared by both scripts *)

(** An instance of Python's [Exception]: its class name and [str(e)].
    Both scripts only ever write [except Exception as e] and format
    [e] into a message, so this is all they can observe of a failure. *)
Record PyExc := mkExc { exc_class : string; exc_str : string }.

(** Outcome of a Python expression: a value, or a raised exception. *)
Inductive result (A : Type) : Type :=
| Ok (a : A)
| Raise (e : PyExc).
Arguments Ok {A} a.
Arguments Raise {A} e.

(** What a process writes: [print(s)], the prompt of [input(p)], and the
    traceback the interpreter prints for an exception nobody caught. *)
Inductive out_event :=
| Print (s : string)
| Prompt (p : string)
| Traceback (e : PyExc).

(** Roles of a [ChatMessageContent]. *)
Inductive role := System | User | Assistant | Tool.

Record ChatMessage := mkMsg { msg_role : role; msg_content : string }.

(** The mutable state a run touches: standard output and the
    [ChatHistory] object, which [main] shares with the chat service. *)
Record world := mkWorld { stdout : list out_event; history : list ChatMessage }.

Definition world0 : world := mkWorld [] [].

(** ** The effect monad: state passing with exceptions

    A failed computation keeps the state it reached: output already
    printed and messages already appended are not rolled back. *)
Definition M (A : Type) : Type := world -> result A * world.

#[global] Instance M_ret : MRet M := fun A a w => (Ok a, w).

#[global] Instance M_bind : MBind M := fun A B k m w =>
  match m w with
  | (Ok a, w') => k a w'
  | (Raise e, w') => (Raise e, w')
  end.

Definition raise {A} (e : PyExc) : M A := fun w => (Raise e, w).

(** [try: body except Exception as e: handler(e)] *)
Definition try_except {A} (body : M A) (handler : PyExc -> M A) : M A :=
  fun w => match body w with
           | (Ok a, w') => (Ok a, w')
           | (Raise e, w') => handler e w'
           end.

(** An external call that may raise and touches none of the state. *)
Definition call {A} (r : result A) : M A := fun w => (r, w).

Definition emit (ev : out_event) : M unit :=
  fun w => (Ok tt, mkWorld (stdout w ++ [ev]) (history w)).

Definition print (s : string) : M unit := emit (Print s).

(** ** Strings *)

Definition nl : string := String (ascii_of_nat 10) EmptyString.

(** Python truthiness of [os.getenv(..)]: [None] and [''] are falsy. *)
Definition truthy (o : option string) : bool :=
  match o with
  | Some s => negb (String.eqb s "")
  | None => false
  end.

(** [f"{x}"] for a value that may be [None]. *)
Definition fmt (o : option string) : string :=
  match o with Some s => s | None => "None" end.

(** [", ".join(names)] *)
Fixpoint join (sep : string) (l : list string) : string :=
  match l with
  | [] => ""
  | [x] => x
  | x :: rest => x +:+ sep +:+ join sep rest
  end.

(** [s[:n]] *)
Fixpoint slice_to (n : nat) (s : string) : string :=
  match n, s with
  | S n', String c s' => String c (slice_to n' s')
  | _, _ => ""
  end.

(** [str.lower] on one character.  Only the ASCII range is modelled:
    outside it Python consults the Unicode tables, and no code point
    outside [A-Z] lowercases to one of the letters of [exit] or [quit]. *)
Definition lower_ascii (c : ascii) : ascii :=
  let n := nat_of_ascii c in
  if (65 <=? n)%nat && (n <=? 90)%nat then ascii_of_nat (n + 32) else c.

Fixpoint lower (s : string) : string :=
  match s with
  | EmptyString => EmptyString
  | String c s' => String (lower_ascii c) (lower s')
  end.

(** [sub in s] *)
Fixpoint contains (sub s : string) : bool :=
  String.prefix sub s ||
  match s with
  | EmptyString => false
  | String _ s' => contains sub s'
  end.

(** The lines the command-line contract names as ending the session:
    [exit] and [quit] in every mix of upper and lower case, each
    spelling written out.  The list is given letter by letter, not
    computed with [lower], so that it can be compared with the test
    the loop performs. *)
Definition exit_commands : list string :=
  ["exit"; "exiT"; "exIt"; "exIT"; "eXit"; "eXiT"; "eXIt"; "eXIT";
   "Exit"; "ExiT"; "ExIt"; "ExIT"; "EXit"; "EXiT"; "EXIt"; "EXIT";
   "quit"; "quiT"; "quIt"; "quIT"; "qUit"; "qUiT"; "qUIt"; "qUIT";
   "Quit"; "QuiT"; "QuIt"; "QuIT"; "QUit"; "QUiT"; "QUIt"; "QUIT"].

(** ** Objects of the external libraries

    Each SDK object is the record of what its methods answer.  A method
    that can fail answers with a [result]. *)

(** [azure.storage.blob.BlobClient]: [exists()] and
    [download_blob().readall()]. *)
Record BlobClient := mkBlobClient {
  bc_exists : result bool;
  bc_download_readall : result (list Byte.byte)
}.

(** [ContainerClient]: the names met while iterating [list_blobs()]
    (or the failure of that iteration) and [get_blob_client(name)]. *)
Record ContainerClient := mkContainerClient {
  cc_list_blobs : result (list string);
  cc_get_blob_client : string -> result BlobClient
}.

Record BlobServiceClient := mkBlobServiceClient {
  bsc_get_container_client : option string -> result ContainerClient
}.

(** A pandas [DataFrame]: column labels and rows, in file order. *)
Record DataFrame (cell : Type) := mkDataFrame {
  df_columns : list string;
  df_rows : list (list cell)
}.
Arguments mkDataFrame {cell} _ _.
Arguments df_columns {cell} _.
Arguments df_rows {cell} _.

(** [df.head(n)] for [n >= 0]: the first [n] rows, all columns. *)
Definition head {cell} (n : nat) (df : DataFrame cell) : DataFrame cell :=
  mkDataFrame (df_columns df) (take n (df_rows df)).

(** The attributes [BlobStoragePlugin.__init__] sets on [self]. *)
Record BlobStoragePlugin := mkPlugin {
  account_name : option string;
  account_key : option string;
  container_name : option string;
  blob_service_client : BlobServiceClient;
  container_client : ContainerClient
}.

(** An [AzureChatCompletion] object, by the settings it was built with. *)
Record Service := mkService {
  service_id : string;
  deployment_name : option string;
  endpoint : option string;
  api_key : option string;
  api_version : string
}.

(** The Semantic Kernel [Kernel]: registered services and plugins, in
    registration order. *)
Record Kernel := mkKernel {
  services : list Service;
  plugins : list (string * BlobStoragePlugin)
}.

Definition Kernel_new : Kernel := mkKernel [] [].

Definition add_service (k : Kernel) (s : Service) : Kernel :=
  mkKernel (services k ++ [s]) (plugins k).

Definition add_plugin (k : Kernel) (p : BlobStoragePlugin) (plugin_name : string) : Kernel :=
  mkKernel (services k) (plugins k ++ [(plugin_name, p)]).

(** [kernel.get_service(type=AzureChatCompletion)]: every registered
    service has that type, so the first one is selected. *)
Definition get_service (k : Kernel) : M Service :=
  match services k with
  | s :: _ => mret s
  | [] => raise (mkExc "KernelServiceNotFoundError" "No service found.")
  end.

(** ** [ChatHistory] *)

Definition ChatHistory_new : M unit :=
  fun w => (Ok tt, mkWorld (stdout w) []).

Definition add_message (m : ChatMessage) : M unit :=
  fun w => (Ok tt, mkWorld (stdout w) (history w ++ [m])).

Definition add_system_message (s : string) : M unit := add_message (mkMsg System s).
Definition add_user_message (s : string) : M unit := add_message (mkMsg User s).

(** ** The process around [main] *)

(** [asyncio.run(main())] as the last statement of a script: exit
    status 0 when [main] returns, and a traceback with exit status 1
    when an exception leaves it. *)
Definition run_process (prog : M unit) : Z * list out_event :=
  match prog world0 with
  | (Ok _, w) => (0%Z, stdout w)
  | (Raise e, w) => (1%Z, stdout w ++ [Traceback e])
  end.

Definition exit_code (p : Z * list out_event) : Z := fst p.
Definition output (p : Z * list out_event) : list out_event := snd p.

(** ** Sample collaborators

    A small storage account, a toy CSV reader and a scripted chat
    service: the concrete inputs of the examples at the end. *)
Module Sample.

Definition env : gmap string string :=
  list_to_map [("AZURE_OPENAI_DEPLOYMENT_NAME", "gpt-4o");
               ("AZURE_OPENAI_ENDPOINT", "https://demo.openai.azure.com/");
               ("AZURE_OPENAI_API_KEY", "0123456789abcdef");
               ("AZURE_STORAGE_ACCOUNT_NAME", "demoaccount");
               ("AZURE_STORAGE_ACCOUNT_KEY", "c2VjcmV0");
               ("AZURE_STORAGE_CONTAINER_NAME", "csv-data")].

(** A header line and twelve data lines. *)
Definition csv_text : string :=
  join nl ["n"; "1"; "2"; "3"; "4"; "5"; "6"; "7"; "8"; "9"; "10"; "11"; "12"].

Definition blob_a : BlobClient :=
  mkBlobClient (Ok true) (Ok (list_byte_of_string csv_text)).

Definition blob_b : BlobClient :=
  mkBlobClient (Ok true) (Raise (mkExc "HttpResponseError" "boom")).

Definition blob_absent : BlobClient :=
  mkBlobClient (Ok false)
               (Raise (mkExc "ResourceNotFoundError" "The specified blob does not exist.")).

Definition get_blob_client (name : string) : result BlobClient :=
  if String.eqb name "" then Raise (mkExc "ValueError" "Please specify a blob name.")
  else if String.eqb name "a.csv" then Ok blob_a
  else if String.eqb name "b.csv" then Ok blob_b
  else Ok blob_absent.

Definition container : ContainerClient :=
  mkContainerClient (Ok ["a.csv"; "b.csv"]) get_blob_client.

Definition empty_container : ContainerClient :=
  mkContainerClient (Ok []) (fun _ => Ok blob_absent).

Definition odd_container : ContainerClient :=
  mkContainerClient (Ok ["No blobs found."]) get_blob_client.

Definition offline_container : ContainerClient :=
  mkContainerClient (Raise (mkExc "ServiceRequestError" "connection refused"))
                    (fun _ => Ok (mkBlobClient
                                    (Raise (mkExc "ServiceRequestError" "connection refused"))
                                    (Raise (mkExc "ServiceRequestError" "connection refused")))).

Definition account : BlobServiceClient := mkBlobServiceClient (fun _ => Ok container).

Definition BlobServiceClient_new (account_url : string) (credential : option string)
  : result BlobServiceClient := Ok account.

Definition plugin (cc : ContainerClient) : BlobStoragePlugin :=
  mkPlugin (Some "demoaccount") (Some "c2VjcmV0") (Some "csv-data") account cc.

(** Lines of a text, split at the newline character. *)
Fixpoint lines_from (cur : string) (s : string) : list string :=
  match s with
  | EmptyString => [cur]
  | String c s' =>
      if Ascii.eqb c (ascii_of_nat 10) then cur :: lines_from "" s'
      else lines_from (cur +:+ String c "") s'
  end.

(** A one-column CSV reader: the first line is the header, every
    other line is a row; no input at all is a parse failure. *)
Definition read_csv (data : list Byte.byte) : result (DataFrame string) :=
  match lines_from "" (string_of_list_byte data) with
  | header :: rows =>
      if String.eqb header "" then
        Raise (mkExc "EmptyDataError" "No columns to parse from file")
      else Ok (mkDataFrame [header] (map (fun l => [l]) rows))
  | [] => Raise (mkExc "EmptyDataError" "No columns to parse from file")
  end.

Definition to_markdown (df : DataFrame string) : string :=
  join nl (map (fun r => "| " +:+ join " | " r +:+ " |") (df_columns df :: df_rows df)).

Definition AzureChatCompletion (sid : string) (deployment endpoint key : option string)
           (version : string) : result Service :=
  Ok (mkService sid deployment endpoint key version).

(** What [read_csv] makes of [csv_text]. *)
Definition frame : DataFrame string :=
  mkDataFrame ["n"] [["1"]; ["2"]; ["3"]; ["4"]; ["5"]; ["6"]; ["7"]; ["8"];
                     ["9"]; ["10"]; ["11"]; ["12"]].

(** The sample environment with a three-character key. *)
Definition env_short_key : gmap string string :=
  <["AZURE_OPENAI_API_KEY" := "abc"]> env.

Definition unavailable : PyExc :=
  mkExc "ServiceResponseException" "service unavailable".

Definition service : Service :=
  mkService "chat-gpt" (Some "gpt-4o") (Some "https://demo.openai.azure.com/")
            (Some "0123456789abcdef") "2025-01-01-preview".

Definition kernel : Kernel :=
  add_plugin (add_service Kernel_new service) (plugin container) "BlobTools".

(** A scripted chat service, keyed on the last message of the history
    it is handed: it can answer, run a tool round first, or fail
    (before or after a tool round). *)
Definition tool_round (w : world) : world :=
  mkWorld (stdout w)
          (history w ++ [mkMsg Assistant "call list_blobs"; mkMsg Tool "a.csv, b.csv"]).

Definition get_chat_message_content (svc : Service) (k : option Kernel) : M ChatMessage :=
  fun w =>
    match last (history w) with
    | Some m =>
        if String.eqb (msg_content m) "crash" then (Raise unavailable, w)
        else if String.eqb (msg_content m) "list then crash" then
          (Raise unavailable, tool_round w)
        else if String.eqb (msg_content m) "list" then
          (Ok (mkMsg Assistant "The container holds a.csv and b.csv."), tool_round w)
        else (Ok (mkMsg Assistant ("You said: " +:+ msg_content m)), w)
    | None => (Raise (mkExc "ServiceInvalidRequestError" "empty chat history"), w)
    end.

(** A file of two data lines, and a container that serves it. *)
Definition small_csv_text : string := join nl ["n"; "1"; "2"].

Definition blob_small : BlobClient :=
  mkBlobClient (Ok true) (Ok (list_byte_of_string small_csv_text)).

Definition small_frame : DataFrame string := mkDataFrame ["n"] [["1"]; ["2"]].

Definition small_container : ContainerClient :=
  mkContainerClient (Ok ["small.csv"]) (fun _ => Ok blob_small).

(** A storage endpoint that cannot be reached. *)
Definition BlobServiceClient_down (account_url : string) (credential : option string)
  : result BlobServiceClient :=
  Raise (mkExc "ServiceRequestError" "connection refused").

(** A chat service constructor that rejects its settings. *)
Definition AzureChatCompletion_invalid (sid : string) (deployment endpoint key : option string)
           (version : string) : result Service :=
  Raise (mkExc "ServiceInitializationError" "Failed to create Azure OpenAI settings.").

End Sample.

Section Agent.

(** *** External collaborators *)

(** Values held by a data frame; the code never looks inside one. *)
Variable cell : Type.

(** [pd.read_csv(io.BytesIO(blob_data))] *)
Variable read_csv : list Byte.byte -> result (DataFrame cell).

(** [DataFrame.to_markdown()] (with its [tabulate] dependency installed). *)
Variable to_markdown : DataFrame cell -> string.

(** [BlobServiceClient(account_url=.., credential=..)] *)
Variable BlobServiceClient_new : string -> option string -> result BlobServiceClient.

(** [AzureChatCompletion(service_id=.., deployment_name=.., endpoint=..,
    api_key=.., api_version=..)] *)
Variable AzureChatCompletion :
  string -> option string -> option string -> option string -> string -> result Service.

(** [service.get_chat_message_content(chat_history=history, settings=..,
    kernel=..)].  The history it is given is the shared [ChatHistory]
    object of the [world]; with automatic function calling the
    framework runs the tools and may print and append on the way. *)
Variable get_chat_message_content : Service -> option Kernel -> M ChatMessage.

(** *** [src/blob_agent.py]: [BlobStoragePlugin] *)

Definition BlobStoragePlugin_init (env : gmap string string) : M BlobStoragePlugin :=
  let account_name := env !! "AZURE_STORAGE_ACCOUNT_NAME" in
  let account_key := env !! "AZURE_STORAGE_ACCOUNT_KEY" in
  let container_name := env !! "AZURE_STORAGE_CONTAINER_NAME" in
  if negb (forallb truthy [account_name; account_key; container_name]) then
    raise (mkExc "ValueError" "Azure Blob Storage credentials are missing in .env file.")
  else
    bsc ← call (BlobServiceClient_new
                  ("https://" +:+ fmt account_name +:+ ".blob.core.windows.net")
                  account_key);
    cc ← call (bsc_get_container_client bsc container_name);
    mret (mkPlugin account_name account_key container_name bsc cc).

(** The statements inside the [try] of [read_csv_blob]. *)
Definition read_csv_blob_body (self : BlobStoragePlugin) (blob_name : string) : M string :=
  print (nl +:+ "[Tool] Downloading blob: " +:+ blob_name +:+ "...");;
  blob_client ← call (cc_get_blob_client (container_client self) blob_name);
  ex ← call (bc_exists blob_client);
  if negb ex then
    mret ("Error: Blob '" +:+ blob_name +:+ "' does not exist in container '"
            +:+ fmt (container_name self) +:+ "'.")
  else
    blob_data ← call (bc_download_readall blob_client);
    df ← call (read_csv blob_data);
    mret (to_markdown (head 10 df)).

Definition read_csv_blob (self : BlobStoragePlugin) (blob_name : string) : M string :=
  try_except (read_csv_blob_body self blob_name)
             (fun e => mret ("Error reading blob: " +:+ exc_str e)).

(** The statements inside the [try] of [list_blobs]. *)
Definition list_blobs_body (self : BlobStoragePlugin) : M string :=
  blob_names ← call (cc_list_blobs (container_client self));
  mret (match blob_names with
        | [] => "No blobs found."
        | _ :: _ => join ", " blob_names
        end).

Definition list_blobs (self : BlobStoragePlugin) : M string :=
  try_except (list_blobs_body self)
             (fun e => mret ("Error listing blobs: " +:+ exc_str e)).

(** *** [src/blob_agent.py]: [main] *)

(** [user_input.lower() in ["exit", "quit"]] *)
Definition is_exit (user_input : string) : bool :=
  bool_decide (lower user_input ∈ ["exit"; "quit"]).

(** The loop body after the user message is recorded: fetch the
    service, ask for a completion, print and record the reply, or
    print the failure. *)
Definition complete_turn (kernel : Kernel) : M unit :=
  chat_completion ← get_service kernel;
  try_except
    (result ← get_chat_message_content chat_completion (Some kernel);
     print ("Agent: " +:+ msg_content result +:+ nl);;
     add_message result)
    (fun e => print ("Error during chat: " +:+ exc_str e)).

(** One pass through the loop body after the exit test. *)
Definition chat_turn (kernel : Kernel) (user_input : string) : M unit :=
  add_user_message user_input;;
  complete_turn kernel.

(** [while True: ...] over the lines that standard input still holds.
    [input] writes its prompt, then returns the next line or raises
    [EOFError] when there is none. *)
Fixpoint chat_loop (kernel : Kernel) (stdin : list string) : M unit :=
  emit (Prompt "User: ");;
  match stdin with
  | [] => raise (mkExc "EOFError" "EOF when reading a line")
  | user_input :: rest =>
      if is_exit user_input then mret tt
      else (chat_turn kernel user_input;; chat_loop kernel rest)
  end.

Definition system_prompt : string :=
  "You are an AI assistant that can read data from Azure Blob Storage using the BlobTools plugin. Always check what files are available first if you are unsure.".

Definition main (env : gmap string string) (stdin : list string) : M unit :=
  let kernel := Kernel_new in
  let deployment_name := env !! "AZURE_OPENAI_DEPLOYMENT_NAME" in
  let endpoint := env !! "AZURE_OPENAI_ENDPOINT" in
  let api_key := env !! "AZURE_OPENAI_API_KEY" in
  if negb (forallb truthy [deployment_name; endpoint; api_key]) then
    print "Missing Azure OpenAI credentials in .env file. Please configure them."
  else
    svc ← call (AzureChatCompletion "chat-gpt" deployment_name endpoint api_key
                                     "2025-01-01-preview");
    let kernel := add_service kernel svc in
    loaded ← try_except
               (plugin ← BlobStoragePlugin_init env;
                mret (Some (add_plugin kernel plugin "BlobTools")))
               (fun e => print ("Failed to initialize BlobStoragePlugin: " +:+ exc_str e);;
                         mret None);
    match loaded with
    | None => mret tt
    | Some kernel =>
        ChatHistory_new;;
        add_system_message system_prompt;;
        print "--- Azure Blob Storage Agent (Semantic Kernel) ---";;
        print ("Type 'exit' to quit." +:+ nl);;
        chat_loop kernel stdin
    end.

(** *** [src/test_openai.py]: [main] *)

(** The argument of the print on the key line:
    [f"API Key: {api_key[:5]}..." if api_key else "API Key: None"] *)
Definition api_key_line (api_key : option string) : string :=
  match api_key with
  | Some k => if truthy api_key then "API Key: " +:+ slice_to 5 k +:+ "..."
              else "API Key: None"
  | None => "API Key: None"
  end.

(** The prints before the [try]. *)
Definition diagnostics (env : gmap string string) : M unit :=
  print "Testing Azure OpenAI Connection...";;
  print ("Endpoint: " +:+ fmt (env !! "AZURE_OPENAI_ENDPOINT"));;
  print ("Deployment: " +:+ fmt (env !! "AZURE_OPENAI_DEPLOYMENT_NAME"));;
  print (api_key_line (env !! "AZURE_OPENAI_API_KEY")).

Definition test_main (env : gmap string string) : M unit :=
  diagnostics env;;
  try_except
    (service ← call (AzureChatCompletion "test"
                       (env !! "AZURE_OPENAI_DEPLOYMENT_NAME")
                       (env !! "AZURE_OPENAI_ENDPOINT")
                       (env !! "AZURE_OPENAI_API_KEY")
                       "2025-01-01-preview");
     print "Service object created.";;
     ChatHistory_new;;
     add_user_message "Hello";;
     print "Sending request...";;
     result ← get_chat_message_content service None;
     print ("Success! Response: " +:+ msg_content result))
    (fun e => print ("Connection Failed: " +:+ exc_str e)).

(** The two functions the plugin registers with [@kernel_function],
    as the framework can call them. *)
Inductive ToolCall :=
| Call_read_csv_blob (blob_name : string)
| Call_list_blobs.

Definition tool_body (self : BlobStoragePlugin) (c : ToolCall) : M string :=
  match c with
  | Call_read_csv_blob blob_name => read_csv_blob_body self blob_name
  | Call_list_blobs => list_blobs_body self
  end.

Definition invoke_tool (self : BlobStoragePlugin) (c : ToolCall) : M string :=
  match c with
  | Call_read_csv_blob blob_name => read_csv_blob self blob_name
  | Call_list_blobs => list_blobs self
  end.

(** The text each handler puts before [str(e)]. *)
Definition error_label (c : ToolCall) : string :=
  match c with
  | Call_read_csv_blob _ => "Error reading blob: "
  | Call_list_blobs => "Error listing blobs: "
  end.

(** The state after the download notice of [read_csv_blob]. *)
Definition notice (blob_name : string) (w : world) : world :=
  mkWorld (stdout w ++ [Print (nl +:+ "[Tool] Downloading blob: " +:+ blob_name +:+ "...")])
          (history w).

(** The variables the two checks of [blob_agent.py] read. *)
Definition openai_vars : list string :=
  ["AZURE_OPENAI_DEPLOYMENT_NAME"; "AZURE_OPENAI_ENDPOINT"; "AZURE_OPENAI_API_KEY"].

Definition storage_vars : list string :=
  ["AZURE_STORAGE_ACCOUNT_NAME"; "AZURE_STORAGE_ACCOUNT_KEY"; "AZURE_STORAGE_CONTAINER_NAME"].

(** States the loop passes through. *)
Definition prompted (w : world) : world :=
  mkWorld (stdout w ++ [Prompt "User: "]) (history w).

Definition user_said (user_input : string) (w : world) : world :=
  mkWorld (stdout w) (history w ++ [mkMsg User user_input]).

Definition reported (e : PyExc) (w : world) : world :=
  mkWorld (stdout w ++ [Print ("Error during chat: " +:+ exc_str e)]) (history w).

(** The state in which [main] enters the loop: a fresh history
    holding the system message, and the banner printed. *)
Definition started (w : world) : world :=
  mkWorld (stdout w ++ [Print "--- Azure Blob Storage Agent (Semantic Kernel) ---";
                        Print ("Type 'exit' to quit." +:+ nl)])
          [mkMsg System system_prompt].

(** The state after a reply is printed and recorded. *)
Definition answered (m : ChatMessage) (w : world) : world :=
  mkWorld (stdout w ++ [Print ("Agent: " +:+ msg_content m +:+ nl)]) (history w ++ [m]).

(** A computation that never edits or drops an entry of the history:
    what it leaves extends what it found. *)
Definition appends_only {A} (m : M A) : Prop :=
  forall w, history w `prefix_of` history (snd (m w)).

(** Whether a text holds a comma. *)
Definition has_comma (s : string) : bool :=
  existsb (Ascii.eqb ",") (list_ascii_of_string s).

(** [add_message] called once per entry, in order. *)
Fixpoint append_all (entries : list ChatMessage) : M unit :=
  match entries with
  | [] => mret tt
  | m :: rest => add_message m;; append_all rest
  end.

(** The lines the loop handles as user turns: those that come before
    the first exit command. *)
Fixpoint turns (stdin : list string) : list string :=
  match stdin with
  | [] => []
  | line :: rest => if is_exit line then [] else line :: turns rest
  end.

(** What the prints before the [try] of [test_openai.py] write. *)
Definition diagnostic_lines (env : gmap string string) : list out_event :=
  [Print "Testing Azure OpenAI Connection...";
   Print ("Endpoint: " +:+ fmt (env !! "AZURE_OPENAI_ENDPOINT"));
   Print ("Deployment: " +:+ fmt (env !! "AZURE_OPENAI_DEPLOYMENT_NAME"));
   Print (api_key_line (env !! "AZURE_OPENAI_API_KEY"))].

(** The last line of [test_openai.py], by the outcome of the request. *)
Definition verdict (r : result ChatMessage) : string :=
  match r with
  | Ok m => "Success! Response: " +:+ msg_content m
  | Raise e => "Connection Failed: " +:+ exc_str e
  end.

(** * Properties *)

(** ** Strings *)

Lemma append_nil (r : string) : "" +:+ r = r.
Proof. reflexivity. Qed.

Lemma append_cons (c : ascii) (p r : string) : String c p +:+ r = String c (p +:+ r).
Proof. reflexivity. Qed.

Lemma append_assoc (a b c : string) : (a +:+ b) +:+ c = a +:+ (b +:+ c).
Proof.
  induction a as [|x a IH]; [reflexivity|].
  rewrite !append_cons, IH. reflexivity.
Qed.

Lemma prefix_nil (s : string) : String.prefix "" s = true.
Proof. destruct s; reflexivity. Qed.

Lemma prefix_append (p r : string) : String.prefix p (p +:+ r) = true.
Proof.
  induction p as [|c p IH]; [apply prefix_nil|].
  rewrite append_cons. simpl. destruct (ascii_dec c c); [exact IH | congruence].
Qed.

Lemma contains_unfold (sub s : string) :
  contains sub s =
  String.prefix sub s || match s with "" => false | String _ s' => contains sub s' end.
Proof. destruct s; reflexivity. Qed.

Lemma contains_prefix (sub s : string) : String.prefix sub s = true -> contains sub s = true.
Proof. intros H. rewrite contains_unfold, H. reflexivity. Qed.

Lemma contains_append (a sub b : string) : contains sub (a +:+ sub +:+ b) = true.
Proof.
  induction a as [|c a IH].
  - rewrite append_nil. apply contains_prefix, prefix_append.
  - rewrite append_cons, contains_unfold, IH. apply orb_true_r.
Qed.

Lemma lower_length (s : string) : String.length (lower s) = String.length s.
Proof. induction s as [|c s IH]; [reflexivity|]. cbn [lower String.length]. now rewrite IH. Qed.

(** The characters [lower_ascii] sends to a given lower-case letter
    are that letter and its capital, found by going through all 256
    characters. *)
Ltac two_preimages :=
  let c := fresh "c" in
  let H := fresh "H" in
  intros c H;
  destruct c as [[] [] [] [] [] [] [] []]; vm_compute in H;
  first [discriminate H | left; reflexivity | right; reflexivity].

Lemma lower_ascii_e : forall c, lower_ascii c = "e"%char -> c = "e"%char \/ c = "E"%char.
Proof. two_preimages. Qed.

Lemma lower_ascii_x : forall c, lower_ascii c = "x"%char -> c = "x"%char \/ c = "X"%char.
Proof. two_preimages. Qed.

Lemma lower_ascii_i : forall c, lower_ascii c = "i"%char -> c = "i"%char \/ c = "I"%char.
Proof. two_preimages. Qed.

Lemma lower_ascii_t : forall c, lower_ascii c = "t"%char -> c = "t"%char \/ c = "T"%char.
Proof. two_preimages. Qed.

Lemma lower_ascii_q : forall c, lower_ascii c = "q"%char -> c = "q"%char \/ c = "Q"%char.
Proof. two_preimages. Qed.

Lemma lower_ascii_u : forall c, lower_ascii c = "u"%char -> c = "u"%char \/ c = "U"%char.
Proof. two_preimages. Qed.

Lemma lower_exit_spellings (line : string) :
  lower line = "exit" -> line ∈ exit_commands.
Proof.
  destruct line as [|c1 [|c2 [|c3 [|c4 [|c5 line]]]]]; try discriminate.
  cbn [lower]. intros H. injection H as H1 H2 H3 H4.
  destruct (lower_ascii_e _ H1) as [->| ->], (lower_ascii_x _ H2) as [->| ->],
    (lower_ascii_i _ H3) as [->| ->], (lower_ascii_t _ H4) as [->| ->]; compute_done.
Qed.

Lemma lower_quit_spellings (line : string) :
  lower line = "quit" -> line ∈ exit_commands.
Proof.
  destruct line as [|c1 [|c2 [|c3 [|c4 [|c5 line]]]]]; try discriminate.
  cbn [lower]. intros H. injection H as H1 H2 H3 H4.
  destruct (lower_ascii_q _ H1) as [->| ->], (lower_ascii_u _ H2) as [->| ->],
    (lower_ascii_i _ H3) as [->| ->], (lower_ascii_t _ H4) as [->| ->]; compute_done.
Qed.

Lemma exit_commands_lower (line : string) :
  line ∈ exit_commands -> lower line ∈ ["exit"; "quit"].
Proof.
  unfold exit_commands. intros H.
  repeat (apply elem_of_cons in H as [->|H]; [compute_done|]).
  inversion H.
Qed.

(** A joined list of two or more names holds the separator's comma. *)
Lemma has_comma_append (a b : string) :
  has_comma (a +:+ b) = has_comma a || has_comma b.
Proof.
  unfold has_comma. induction a as [|c a IH]; [reflexivity|].
  rewrite append_cons. simpl. rewrite IH. apply orb_assoc.
Qed.

Lemma join_two_has_comma (x y : string) (rest : list string) :
  has_comma (join ", " (x :: y :: rest)) = true.
Proof.
  change (join ", " (x :: y :: rest)) with (x +:+ ", " +:+ join ", " (y :: rest)).
  rewrite !has_comma_append.
  replace (has_comma ", ") with true by reflexivity.
  rewrite orb_true_l, orb_true_r. reflexivity.
Qed.

(** ** The plugin's tools *)

Lemma try_except_raise {A} (body : M A) (handler : PyExc -> M A) w e w' :
  body w = (Raise e, w') -> try_except body handler w = handler e w'.
Proof. intros H. unfold try_except. rewrite H. reflexivity. Qed.

Lemma try_except_ok {A} (body : M A) (handler : PyExc -> M A) w a w' :
  body w = (Ok a, w') -> try_except body handler w = (Ok a, w').
Proof. intros H. unfold try_except. rewrite H. reflexivity. Qed.

Lemma invoke_tool_unfold self c :
  invoke_tool self c =
  try_except (tool_body self c) (fun e => mret (error_label c +:+ exc_str e)).
Proof. destruct c; reflexivity. Qed.

(** No call of a tool lets an exception out. *)
Lemma invoke_tool_returns self c w :
  exists s w', invoke_tool self c w = (Ok s, w').
Proof.
  rewrite invoke_tool_unfold. unfold try_except.
  destruct (tool_body self c w) as [[s|e] w']; eauto.
Qed.

Lemma read_csv_blob_body_unfold self blob_name w :
  read_csv_blob_body self blob_name w =
  match cc_get_blob_client (container_client self) blob_name with
  | Raise e => (Raise e, notice blob_name w)
  | Ok blob_client =>
      match bc_exists blob_client with
      | Raise e => (Raise e, notice blob_name w)
      | Ok false =>
          (Ok ("Error: Blob '" +:+ blob_name +:+ "' does not exist in container '"
                 +:+ fmt (container_name self) +:+ "'."), notice blob_name w)
      | Ok true =>
          match bc_download_readall blob_client with
          | Raise e => (Raise e, notice blob_name w)
          | Ok blob_data =>
              match read_csv blob_data with
              | Raise e => (Raise e, notice blob_name w)
              | Ok df => (Ok (to_markdown (head 10 df)), notice blob_name w)
              end
          end
      end
  end.
Proof.
  unfold read_csv_blob_body, mbind, M_bind, print, emit, call, mret, M_ret, notice; simpl.
  destruct (cc_get_blob_client _ _) as [bc|e]; [|reflexivity].
  destruct (bc_exists bc) as [[|]|e]; simpl; [|reflexivity..].
  destruct (bc_download_readall bc) as [d|e]; [|reflexivity].
  destruct (read_csv d) as [df|e]; reflexivity.
Qed.

(** C1 (as amended): whatever exception the statements of a tool
    raise, the tool does not propagate it: it returns a string made
    of its own label, ["Error reading blob: "] or
    ["Error listing blobs: "], followed by the exception's text.  That
    string begins with ["Error"]; the character after it is a space,
    not a colon. *)
Theorem tool_failure_is_returned_as_text self c w e w' :
  tool_body self c w = (Raise e, w') ->
  invoke_tool self c w = (Ok (error_label c +:+ exc_str e), w')
  /\ String.prefix "Error" (error_label c +:+ exc_str e) = true
  /\ String.prefix (error_label c) (error_label c +:+ exc_str e) = true
  /\ String.prefix "Error:" (error_label c +:+ exc_str e) = false.
Proof.
  intros H. split.
  - rewrite invoke_tool_unfold. now rewrite (try_except_raise _ _ _ _ _ H).
  - split; [destruct c; reflexivity|].
    split; [apply prefix_append | destruct c; reflexivity].
Qed.

(** C2: when the blob client reports that the blob does not exist,
    [read_csv_blob] returns a string that begins with ["Error:"] and
    contains ["does not exist"]. *)
Theorem read_csv_blob_missing self blob_name blob_client w :
  cc_get_blob_client (container_client self) blob_name = Ok blob_client ->
  bc_exists blob_client = Ok false ->
  exists s,
    read_csv_blob self blob_name w = (Ok s, notice blob_name w)
    /\ s = "Error: Blob '" +:+ blob_name +:+ "' does not exist in container '"
             +:+ fmt (container_name self) +:+ "'."
    /\ String.prefix "Error:" s = true
    /\ contains "does not exist" s = true.
Proof.
  intros Hc Hx. eexists. split; [|split; [reflexivity|split]].
  - unfold read_csv_blob. apply try_except_ok.
    rewrite read_csv_blob_body_unfold, Hc, Hx. reflexivity.
  - reflexivity.
  - replace ("Error: Blob '" +:+ blob_name +:+ "' does not exist in container '"
               +:+ fmt (container_name self) +:+ "'.")
      with (("Error: Blob '" +:+ blob_name +:+ "' ") +:+ "does not exist"
              +:+ (" in container '" +:+ fmt (container_name self) +:+ "'."))
      by (now rewrite !append_assoc).
    apply contains_append.
Qed.

Lemma append_empty_r (s : string) : s +:+ "" = s.
Proof. induction s as [|c s IH]; [reflexivity|]. now rewrite append_cons, IH. Qed.

Lemma contains_suffix (a sub : string) : contains sub (a +:+ sub) = true.
Proof. rewrite <- (append_empty_r sub) at 2. apply contains_append. Qed.

Lemma list_blobs_unfold self w :
  list_blobs self w =
  match cc_list_blobs (container_client self) with
  | Ok [] => (Ok "No blobs found.", w)
  | Ok (x :: rest) => (Ok (join ", " (x :: rest)), w)
  | Raise e => (Ok ("Error listing blobs: " +:+ exc_str e), w)
  end.
Proof.
  unfold list_blobs, list_blobs_body, try_except, mbind, M_bind, call, mret, M_ret.
  destruct (cc_list_blobs _) as [[|x rest]|e]; reflexivity.
Qed.

(** C3 (as amended): when the listing succeeds, [list_blobs] returns
    the names joined by [", "], and ["No blobs found."] when there are
    none.  The converse holds up to one container: the text
    ["No blobs found."] comes back only from an empty container or
    from a container whose single blob has that very name. *)
Theorem list_blobs_joins_names self names w :
  cc_list_blobs (container_client self) = Ok names ->
  exists s,
    list_blobs self w = (Ok s, w)
    /\ (names = [] -> s = "No blobs found.")
    /\ (names <> [] -> s = join ", " names)
    /\ (s = "No blobs found." -> names = [] \/ names = ["No blobs found."]).
Proof.
  intros H. rewrite list_blobs_unfold, H.
  destruct names as [|x [|y rest]]; eexists; (split; [reflexivity|]).
  - repeat split; auto. congruence.
  - repeat split; try congruence. simpl. intros ->. now right.
  - repeat split; try congruence. intros Heq.
    pose proof (join_two_has_comma x y rest) as Hc.
    rewrite Heq in Hc. discriminate Hc.
Qed.

Lemma read_csv_blob_unfold self blob_name w :
  read_csv_blob self blob_name w =
  match read_csv_blob_body self blob_name w with
  | (Ok s, w') => (Ok s, w')
  | (Raise e, w') => (Ok ("Error reading blob: " +:+ exc_str e), w')
  end.
Proof. reflexivity. Qed.

(** C4: for a blob that exists, downloads and parses, [read_csv_blob]
    returns the rendering of a frame that keeps the columns and the
    first ten rows, fewer when the file has fewer; the text is the
    same for any two files that agree on those. *)
Theorem read_csv_blob_previews_ten_rows self blob_name blob_client blob_data df w :
  cc_get_blob_client (container_client self) blob_name = Ok blob_client ->
  bc_exists blob_client = Ok true ->
  bc_download_readall blob_client = Ok blob_data ->
  read_csv blob_data = Ok df ->
  read_csv_blob self blob_name w = (Ok (to_markdown (head 10 df)), notice blob_name w)
  /\ df_columns (head 10 df) = df_columns df
  /\ df_rows (head 10 df) = take 10 (df_rows df)
  /\ length (df_rows (head 10 df)) = Nat.min 10 (length (df_rows df))
  /\ length (df_rows (head 10 df)) <= 10
  /\ (forall df' : DataFrame cell,
        df_columns df' = df_columns df ->
        take 10 (df_rows df') = take 10 (df_rows df) ->
        to_markdown (head 10 df') = to_markdown (head 10 df)).
Proof.
  intros Hc Hx Hd Hp. split.
  - rewrite read_csv_blob_unfold, read_csv_blob_body_unfold, Hc, Hx, Hd, Hp. reflexivity.
  - unfold head; cbn [df_columns df_rows]. repeat split.
    + apply length_take.
    + rewrite length_take. lia.
    + intros df' H1 H2. now rewrite H1, H2.
Qed.

(** C9: [list_blobs] always returns a string and leaves the state as
    it found it; when the storage listing raises [e], that string is
    ["Error listing blobs: "] followed by [str(e)]. *)
Theorem list_blobs_never_raises self w :
  exists s,
    list_blobs self w = (Ok s, w)
    /\ (forall e, cc_list_blobs (container_client self) = Raise e ->
          s = "Error listing blobs: " +:+ exc_str e
          /\ String.prefix "Error listing blobs:" s = true
          /\ contains (exc_str e) s = true).
Proof.
  rewrite list_blobs_unfold.
  destruct (cc_list_blobs _) as [[|x rest]|e]; eexists; (split; [reflexivity|]);
    intros e' He; try discriminate He.
  injection He as <-. repeat split.
  apply contains_suffix.
Qed.

(** ** Startup *)

Lemma forallb_truthy_missing (env : gmap string string) (vars : list string) v :
  v ∈ vars -> truthy (env !! v) = false ->
  forallb truthy ((env !!.) <$> vars) = false.
Proof.
  intros Hin Hv. induction vars as [|x vars IH]; [inversion Hin|].
  rewrite fmap_cons. cbn [forallb].
  apply elem_of_cons in Hin as [->|Hin].
  - now rewrite Hv.
  - rewrite (IH Hin). apply andb_false_r.
Qed.

Lemma BlobStoragePlugin_init_missing env w :
  forallb truthy ((env !!.) <$> storage_vars) = false ->
  BlobStoragePlugin_init env w =
  (Raise (mkExc "ValueError" "Azure Blob Storage credentials are missing in .env file."), w).
Proof.
  intros H. unfold BlobStoragePlugin_init.
  change (forallb truthy _) with (forallb truthy ((env !!.) <$> storage_vars)).
  rewrite H. reflexivity.
Qed.

Lemma app_snoc2 {A} (l : list A) (a b : A) : l ++ [a; b] = (l ++ [a]) ++ [b].
Proof. now rewrite <- app_assoc. Qed.

Lemma main_unfold env stdin w :
  main env stdin w =
  if forallb truthy ((env !!.) <$> openai_vars) then
    match AzureChatCompletion "chat-gpt" (env !! "AZURE_OPENAI_DEPLOYMENT_NAME")
                              (env !! "AZURE_OPENAI_ENDPOINT")
                              (env !! "AZURE_OPENAI_API_KEY") "2025-01-01-preview" with
    | Raise e => (Raise e, w)
    | Ok svc =>
        match BlobStoragePlugin_init env w with
        | (Raise e, w') =>
            (Ok tt, mkWorld (stdout w' ++ [Print ("Failed to initialize BlobStoragePlugin: "
                                                    +:+ exc_str e)]) (history w'))
        | (Ok plugin, w') =>
            chat_loop (add_plugin (add_service Kernel_new svc) plugin "BlobTools")
                      stdin (started w')
        end
    end
  else
    (Ok tt, mkWorld (stdout w ++ [Print "Missing Azure OpenAI credentials in .env file. Please configure them."])
                    (history w)).
Proof.
  unfold main.
  change (forallb truthy [_; _; _]) with (forallb truthy ((env !!.) <$> openai_vars)).
  destruct (forallb truthy _); [|reflexivity].
  cbn [negb]. unfold mbind, M_bind, call at 1.
  destruct (AzureChatCompletion _ _ _ _ _) as [svc|e]; [|reflexivity].
  unfold try_except, mbind, M_bind.
  destruct (BlobStoragePlugin_init env w) as [[plugin|e] w']; [|reflexivity].
  unfold started. rewrite app_snoc2. reflexivity.
Qed.

(** C5 (as amended): when one of the three Azure OpenAI variables the
    program reads, or one of the three storage variables, is unset or
    empty, the process writes exactly one message and ends without
    printing the banner or prompting: the missing-credentials message
    of the check that failed (exit status 0), or the traceback of the
    chat service constructor if that raised before the storage check
    was reached (exit status 1).  The API version is the constant
    ["2025-01-01-preview"]; no variable is read for it. *)
Theorem missing_configuration_stops_startup env stdin v :
  v ∈ openai_vars ++ storage_vars ->
  truthy (env !! v) = false ->
  (forallb truthy ((env !!.) <$> openai_vars) = false
   /\ run_process (main env stdin) =
      (0%Z, [Print "Missing Azure OpenAI credentials in .env file. Please configure them."]))
  \/ (exists svc,
        AzureChatCompletion "chat-gpt" (env !! "AZURE_OPENAI_DEPLOYMENT_NAME")
                            (env !! "AZURE_OPENAI_ENDPOINT")
                            (env !! "AZURE_OPENAI_API_KEY") "2025-01-01-preview" = Ok svc
        /\ run_process (main env stdin) =
           (0%Z, [Print "Failed to initialize BlobStoragePlugin: Azure Blob Storage credentials are missing in .env file."]))
  \/ (exists e,
        AzureChatCompletion "chat-gpt" (env !! "AZURE_OPENAI_DEPLOYMENT_NAME")
                            (env !! "AZURE_OPENAI_ENDPOINT")
                            (env !! "AZURE_OPENAI_API_KEY") "2025-01-01-preview" = Raise e
        /\ run_process (main env stdin) = (1%Z, [Traceback e])).
Proof.
  intros Hin Hv. unfold run_process. rewrite main_unfold.
  destruct (forallb truthy ((env !!.) <$> openai_vars)) eqn:Ho.
  - right. apply elem_of_app in Hin as [Hin|Hin].
    { rewrite (forallb_truthy_missing env _ v Hin Hv) in Ho. discriminate Ho. }
    pose proof (forallb_truthy_missing env _ v Hin Hv) as Hs.
    destruct (AzureChatCompletion _ _ _ _ _) as [svc|e].
    + left. exists svc. split; [reflexivity|].
      rewrite (BlobStoragePlugin_init_missing env world0 Hs). reflexivity.
    + right. exists e. split; reflexivity.
  - left. split; reflexivity.
Qed.

(** ** The chat loop *)

Lemma is_exit_spec line :
  is_exit line = bool_decide (line ∈ exit_commands).
Proof.
  unfold is_exit. apply bool_decide_ext. split.
  - intros H. apply elem_of_cons in H as [H|H]; [now apply lower_exit_spellings|].
    apply list_elem_of_singleton in H. now apply lower_quit_spellings.
  - apply exit_commands_lower.
Qed.

Lemma chat_loop_unfold kernel line rest w :
  chat_loop kernel (line :: rest) w =
  if is_exit line then (Ok tt, prompted w)
  else (complete_turn kernel;; chat_loop kernel rest) (user_said line (prompted w)).
Proof.
  cbn [chat_loop]. unfold mbind, M_bind, emit. cbn [stdout history].
  destruct (is_exit line); [reflexivity|].
  unfold chat_turn, mbind, M_bind. reflexivity.
Qed.

(** C8: a line ends the session exactly when it is one of the
    thirty-two spellings of [exit] and [quit] in upper and lower case
    ([EXIT], [Quit], [eXiT], ...).  The loop then returns at once, so
    the process ends with status 0 having written only the prompt.
    Any other line is a user turn: it is appended to the history as a
    user message, a completion is requested, and the loop goes on to
    the next line. *)
Theorem exit_commands_end_the_session kernel line rest w :
  (is_exit line = true <-> line ∈ exit_commands)
  /\ if bool_decide (line ∈ exit_commands)
     then chat_loop kernel (line :: rest) w = (Ok tt, prompted w)
          /\ run_process (chat_loop kernel (line :: rest)) = (0%Z, [Prompt "User: "])
     else chat_loop kernel (line :: rest) w =
          (complete_turn kernel;; chat_loop kernel rest) (user_said line (prompted w)).
Proof.
  split.
  - rewrite is_exit_spec. apply bool_decide_eq_true.
  - rewrite <- is_exit_spec. unfold run_process. rewrite !chat_loop_unfold.
    destruct (is_exit line); [split|]; reflexivity.
Qed.

(** ** The connection test *)

Lemma api_key_line_reads_five_characters k1 k2 :
  slice_to 5 k1 = slice_to 5 k2 ->
  api_key_line (Some k1) = api_key_line (Some k2).
Proof.
  intros H. unfold api_key_line, truthy.
  destruct k1 as [|c1 k1], k2 as [|c2 k2]; try discriminate H; [reflexivity|].
  cbn [String.eqb negb]. now rewrite H.
Qed.

Lemma slice_to_length (n : nat) (k : string) :
  String.length (slice_to n k) = Nat.min n (String.length k).
Proof.
  revert k. induction n as [|n IH]; intros [|c k]; simpl; try reflexivity.
  now rewrite IH.
Qed.

Lemma long_key_is_cut (k : string) : 5 < String.length k -> slice_to 5 k <> k.
Proof.
  intros Hlen Heq. pose proof (slice_to_length 5 k) as H.
  rewrite Heq in H. lia.
Qed.

(** ** The transcript *)

Lemma append_all_spec entries w :
  append_all entries w = (Ok tt, mkWorld (stdout w) (history w ++ entries)).
Proof.
  revert w. induction entries as [|m entries IH]; intros [out h].
  - cbn. now rewrite app_nil_r.
  - cbn [append_all]. unfold mbind, M_bind, add_message. cbn [stdout history].
    rewrite IH. cbn [stdout history]. now rewrite <- app_assoc.
Qed.

Lemma appends_only_ret {A} (a : A) : appends_only (mret a).
Proof. intros w. reflexivity. Qed.

Lemma appends_only_raise {A} (e : PyExc) : appends_only (@raise A e).
Proof. intros w. reflexivity. Qed.

Lemma appends_only_call {A} (r : result A) : appends_only (call r).
Proof. intros w. reflexivity. Qed.

Lemma appends_only_emit ev : appends_only (emit ev).
Proof. intros w. reflexivity. Qed.

Lemma appends_only_add_message m : appends_only (add_message m).
Proof. intros w. cbn. now apply prefix_app_r. Qed.

Lemma appends_only_bind {A B} (m : M A) (k : A -> M B) :
  appends_only m -> (forall a, appends_only (k a)) -> appends_only (m ≫= k).
Proof.
  intros Hm Hk w. unfold mbind, M_bind.
  specialize (Hm w). destruct (m w) as [[a|e] w1]; cbn [snd] in *; [|exact Hm].
  etrans; [exact Hm | apply Hk].
Qed.

Lemma appends_only_try_except {A} (body : M A) (handler : PyExc -> M A) :
  appends_only body -> (forall e, appends_only (handler e)) ->
  appends_only (try_except body handler).
Proof.
  intros Hb Hh w. unfold try_except.
  specialize (Hb w). destruct (body w) as [[a|e] w1]; cbn [snd] in *; [exact Hb|].
  etrans; [exact Hb | apply Hh].
Qed.

Lemma appends_only_get_service kernel : appends_only (get_service kernel).
Proof.
  unfold get_service. destruct (services kernel);
    [apply appends_only_raise | apply appends_only_ret].
Qed.

Lemma complete_turn_unfold kernel svc others w :
  services kernel = svc :: others ->
  complete_turn kernel w =
  match get_chat_message_content svc (Some kernel) w with
  | (Ok m, w') => (Ok tt, answered m w')
  | (Raise e, w') => (Ok tt, reported e w')
  end.
Proof.
  intros Hs. unfold complete_turn, get_service. rewrite Hs.
  unfold mbind at 1, M_bind at 1, mret, M_ret, try_except, mbind, M_bind.
  destruct (get_chat_message_content svc (Some kernel) w) as [[m|e] w']; reflexivity.
Qed.

(** What the framework is relied on for: a completion request only
    ever appends to the history it is handed (the assistant's tool
    requests and the tool results of automatic function calling). *)
Hypothesis framework_appends :
  forall svc k, appends_only (get_chat_message_content svc k).

Lemma appends_only_complete_turn kernel : appends_only (complete_turn kernel).
Proof.
  unfold complete_turn.
  apply appends_only_bind; [apply appends_only_get_service|]. intros svc.
  apply appends_only_try_except.
  - apply appends_only_bind; [apply framework_appends|]. intros m.
    apply appends_only_bind; [apply appends_only_emit|]. intros _.
    apply appends_only_add_message.
  - intros e. apply appends_only_emit.
Qed.

Lemma appends_only_chat_turn kernel line : appends_only (chat_turn kernel line).
Proof.
  unfold chat_turn.
  apply appends_only_bind; [apply appends_only_add_message|]. intros _.
  apply appends_only_complete_turn.
Qed.

Lemma appends_only_chat_loop kernel stdin : appends_only (chat_loop kernel stdin).
Proof.
  induction stdin as [|line rest IH]; cbn [chat_loop];
    (apply appends_only_bind; [apply appends_only_emit|]; intros _).
  - apply appends_only_raise.
  - destruct (is_exit line); [apply appends_only_ret|].
    apply appends_only_bind; [apply appends_only_chat_turn|]. intros _. exact IH.
Qed.

(** C6: when the completion request of a turn raises [e], the turn
    ends normally after printing the one line
    ["Error during chat: " ++ str(e)]; the history is left exactly as
    the failed request left it, so everything recorded before the
    turn and the user message of the turn are still there, in place;
    and the loop goes on to read the next line. *)
Theorem provider_failure_ends_only_the_turn kernel svc others line rest w e w' :
  services kernel = svc :: others ->
  is_exit line = false ->
  get_chat_message_content svc (Some kernel) (user_said line (prompted w)) = (Raise e, w') ->
  chat_turn kernel line (prompted w) = (Ok tt, reported e w')
  /\ stdout (reported e w') = stdout w' ++ [Print ("Error during chat: " +:+ exc_str e)]
  /\ history (reported e w') = history w'
  /\ history w ++ [mkMsg User line] `prefix_of` history (reported e w')
  /\ chat_loop kernel (line :: rest) w = chat_loop kernel rest (reported e w').
Proof.
  intros Hs Hx Hf.
  assert (Ht : complete_turn kernel (user_said line (prompted w)) = (Ok tt, reported e w')).
  { rewrite (complete_turn_unfold _ _ _ _ Hs), Hf. reflexivity. }
  split; [exact Ht|]. split; [reflexivity|]. split; [reflexivity|]. split.
  - pose proof (framework_appends svc (Some kernel) (user_said line (prompted w))) as Hp.
    rewrite Hf in Hp. exact Hp.
  - rewrite chat_loop_unfold, Hx. unfold mbind, M_bind. rewrite Ht. reflexivity.
Qed.

(** C7: the history is append-only.  [N] appends to a new history
    leave exactly those [N] entries, in the order they were appended;
    and whatever the chat loop does (prompting, recording the user
    message, requesting a completion, recording the reply, reporting a
    failure, leaving) the history it ends with extends the one it
    started from, entry for entry. *)
Theorem transcript_is_append_only :
  (forall entries w,
      history (snd ((ChatHistory_new;; append_all entries) w)) = entries
      /\ length (history (snd ((ChatHistory_new;; append_all entries) w))) = length entries)
  /\ (forall entries w,
      append_all entries w = (Ok tt, mkWorld (stdout w) (history w ++ entries)))
  /\ (forall kernel line, appends_only (chat_turn kernel line))
  /\ (forall kernel stdin, appends_only (chat_loop kernel stdin)).
Proof.
  split; [|split; [apply append_all_spec|split;
                   [apply appends_only_chat_turn | apply appends_only_chat_loop]]].
  intros entries w.
  assert (H : history (snd ((ChatHistory_new;; append_all entries) w)) = entries).
  { unfold mbind, M_bind, ChatHistory_new. rewrite append_all_spec. reflexivity. }
  now rewrite H.
Qed.

(** ** Further properties of the tools *)

(** X1: whatever happens inside it, a tool leaves the history alone.
    [read_csv_blob] writes its download notice, once, and nothing else;
    [list_blobs] writes nothing. *)
Theorem tools_write_only_the_notice self c w :
  snd (invoke_tool self c w) =
  match c with
  | Call_read_csv_blob blob_name => notice blob_name w
  | Call_list_blobs => w
  end.
Proof.
  destruct c as [blob_name|]; cbn [invoke_tool].
  - rewrite read_csv_blob_unfold, read_csv_blob_body_unfold.
    destruct (cc_get_blob_client _ _) as [bc|e]; [|reflexivity].
    destruct (bc_exists bc) as [[|]|e]; try reflexivity.
    destruct (bc_download_readall bc) as [d|e]; [|reflexivity].
    destruct (read_csv d) as [df|e]; reflexivity.
  - rewrite list_blobs_unfold.
    destruct (cc_list_blobs _) as [[|x rest]|e]; reflexivity.
Qed.

Lemma head_short {A} (n : nat) (df : DataFrame A) :
  length (df_rows df) <= n -> head n df = df.
Proof.
  intros H. destruct df as [cols rows]. unfold head. cbn [df_columns df_rows] in *.
  now rewrite take_ge.
Qed.

(** X2: a file of ten data rows or fewer is shown whole: the text
    returned is the rendering of the frame as parsed. *)
Theorem read_csv_blob_shows_short_file_whole self blob_name blob_client blob_data df w :
  cc_get_blob_client (container_client self) blob_name = Ok blob_client ->
  bc_exists blob_client = Ok true ->
  bc_download_readall blob_client = Ok blob_data ->
  read_csv blob_data = Ok df ->
  length (df_rows df) <= 10 ->
  read_csv_blob self blob_name w = (Ok (to_markdown df), notice blob_name w).
Proof.
  intros Hc Hx Hd Hp Hlen.
  rewrite read_csv_blob_unfold, read_csv_blob_body_unfold, Hc, Hx, Hd, Hp.
  now rewrite (head_short 10 df Hlen).
Qed.

Lemma prefix_refl (s : string) : String.prefix s s = true.
Proof. rewrite <- (append_empty_r s) at 2. apply prefix_append. Qed.

Lemma contains_append_r (sub a b : string) :
  contains sub b = true -> contains sub (a +:+ b) = true.
Proof.
  intros H. induction a as [|c a IH]; [exact H|].
  rewrite append_cons, contains_unfold, IH. apply orb_true_r.
Qed.

Lemma join_cons2 (sep x y : string) (rest : list string) :
  join sep (x :: y :: rest) = x +:+ sep +:+ join sep (y :: rest).
Proof. reflexivity. Qed.

Lemma join_contains (sep n : string) (l : list string) :
  n ∈ l -> contains n (join sep l) = true.
Proof.
  induction l as [|x [|y rest] IH]; intros Hin.
  - inversion Hin.
  - apply list_elem_of_singleton in Hin as ->. apply contains_prefix, prefix_refl.
  - rewrite join_cons2. apply elem_of_cons in Hin as [->|Hin].
    + apply contains_prefix, prefix_append.
    + apply contains_append_r, contains_append_r, IH, Hin.
Qed.

(** X3: every name the listing yields can be read in what
    [list_blobs] returns. *)
Theorem list_blobs_mentions_every_name self names n w :
  cc_list_blobs (container_client self) = Ok names ->
  n ∈ names ->
  exists s, list_blobs self w = (Ok s, w) /\ contains n s = true.
Proof.
  intros H Hin. rewrite list_blobs_unfold, H.
  destruct names as [|x rest]; [inversion Hin|].
  eexists. split; [reflexivity|]. now apply join_contains.
Qed.

Lemma has_comma_cons (c : ascii) (s : string) :
  has_comma (String c s) = Ascii.eqb "," c || has_comma s.
Proof. reflexivity. Qed.

Lemma comma_free_split (a b s t : string) :
  has_comma a = false -> has_comma b = false ->
  a +:+ String "," s = b +:+ String "," t -> a = b /\ s = t.
Proof.
  revert b. induction a as [|c a IH]; intros [|d b] Ha Hb Heq.
  - rewrite !append_nil in Heq. injection Heq as ->. now split.
  - rewrite append_nil, append_cons in Heq. injection Heq as <- _.
    rewrite has_comma_cons in Hb. discriminate Hb.
  - rewrite append_nil, append_cons in Heq. injection Heq as -> _.
    rewrite has_comma_cons in Ha. discriminate Ha.
  - rewrite !append_cons in Heq. injection Heq as -> Heq.
    rewrite has_comma_cons in Ha, Hb.
    apply orb_false_elim in Ha as [_ Ha]. apply orb_false_elim in Hb as [_ Hb].
    destruct (IH b Ha Hb Heq) as [-> ->]. now split.
Qed.

Lemma join_comma_free_inj (l1 l2 : list string) :
  Forall (fun n => has_comma n = false) l1 ->
  Forall (fun n => has_comma n = false) l2 ->
  l1 <> [] -> l2 <> [] ->
  join ", " l1 = join ", " l2 -> l1 = l2.
Proof.
  revert l2. induction l1 as [|x [|x' r1] IH]; intros [|y [|y' r2]] H1 H2 N1 N2 Heq;
    try contradiction.
  - cbn in Heq. now subst.
  - exfalso. apply Forall_cons in H1 as [Hx _].
    change (join ", " [x]) with x in Heq. rewrite Heq, join_two_has_comma in Hx.
    discriminate Hx.
  - exfalso. apply Forall_cons in H2 as [Hy _].
    change (join ", " [y]) with y in Heq. rewrite <- Heq, join_two_has_comma in Hy.
    discriminate Hy.
  - rewrite !join_cons2 in Heq.
    apply Forall_cons in H1 as [Hx H1]. apply Forall_cons in H2 as [Hy H2].
    change (", " +:+ ?j) with (String "," (" " +:+ j)) in Heq.
    apply comma_free_split in Heq as [-> Heq]; [|assumption..].
    injection Heq as Heq. f_equal. apply IH; [assumption..|discriminate|discriminate|exact Heq].
Qed.

(** X4: when no blob name holds a comma and none is the text
    [No blobs found.], the names can be recovered from what
    [list_blobs] returns: two listings with the same answer are the
    same listing, names and order. *)
Theorem list_blobs_answer_determines_names self1 self2 names1 names2 w1 w2 :
  cc_list_blobs (container_client self1) = Ok names1 ->
  cc_list_blobs (container_client self2) = Ok names2 ->
  Forall (fun n => has_comma n = false) (names1 ++ names2) ->
  "No blobs found." ∉ names1 ++ names2 ->
  fst (list_blobs self1 w1) = fst (list_blobs self2 w2) ->
  names1 = names2.
Proof.
  intros L1 L2 Hc Hn Heq. rewrite !list_blobs_unfold, L1, L2 in Heq.
  apply Forall_app in Hc as [Hc1 Hc2].
  assert (Hsingle : forall l : list string,
             l <> [] -> "No blobs found." = join ", " l -> "No blobs found." ∈ l).
  { intros [|x [|y r]] Hne Hj; [contradiction| |].
    - cbn in Hj. subst x. apply list_elem_of_here.
    - pose proof (join_two_has_comma x y r) as Hcomma.
      rewrite <- Hj in Hcomma. discriminate Hcomma. }
  destruct names1 as [|x1 r1], names2 as [|x2 r2]; cbn [fst] in Heq.
  - reflexivity.
  - exfalso. apply Hn. injection Heq as Heq. rewrite app_nil_l.
    apply Hsingle; [discriminate | exact Heq].
  - exfalso. apply Hn. injection Heq as Heq. rewrite app_nil_r.
    apply Hsingle; [discriminate | now symmetry].
  - injection Heq as Heq. apply join_comma_free_inj; try assumption; discriminate.
Qed.

(** ** Further properties of the startup *)

Lemma BlobStoragePlugin_init_unfold env w :
  BlobStoragePlugin_init env w =
  if forallb truthy ((env !!.) <$> storage_vars) then
    match BlobServiceClient_new
            ("https://" +:+ fmt (env !! "AZURE_STORAGE_ACCOUNT_NAME")
               +:+ ".blob.core.windows.net")
            (env !! "AZURE_STORAGE_ACCOUNT_KEY") with
    | Raise e => (Raise e, w)
    | Ok bsc =>
        match bsc_get_container_client bsc (env !! "AZURE_STORAGE_CONTAINER_NAME") with
        | Raise e => (Raise e, w)
        | Ok cc =>
            (Ok (mkPlugin (env !! "AZURE_STORAGE_ACCOUNT_NAME")
                          (env !! "AZURE_STORAGE_ACCOUNT_KEY")
                          (env !! "AZURE_STORAGE_CONTAINER_NAME") bsc cc), w)
        end
    end
  else
    (Raise (mkExc "ValueError" "Azure Blob Storage credentials are missing in .env file."), w).
Proof.
  unfold BlobStoragePlugin_init.
  change (forallb truthy [_; _; _]) with (forallb truthy ((env !!.) <$> storage_vars)).
  destruct (forallb truthy _); [|reflexivity].
  cbn [negb]. unfold mbind, M_bind, call, mret, M_ret.
  destruct (BlobServiceClient_new _ _) as [bsc|e]; [|reflexivity].
  destruct (bsc_get_container_client bsc _) as [cc|e]; reflexivity.
Qed.

Lemma BlobStoragePlugin_init_keeps_state env w :
  snd (BlobStoragePlugin_init env w) = w.
Proof.
  rewrite BlobStoragePlugin_init_unfold.
  destruct (forallb truthy _); [|reflexivity].
  destruct (BlobServiceClient_new _ _) as [bsc|e]; [|reflexivity].
  destruct (bsc_get_container_client bsc _) as [cc|e]; reflexivity.
Qed.

(** X5: a plugin that [__init__] has built holds the three storage
    settings of the environment, none of them unset or empty; its
    service client is the one the SDK gave for the account URL
    [https://<account>.blob.core.windows.net] with the account key as
    credential, and its container client is the one that service
    client gave for the container name.  Building it writes nothing. *)
Theorem constructed_plugin_is_configured env w self w' :
  BlobStoragePlugin_init env w = (Ok self, w') ->
  w' = w
  /\ account_name self = env !! "AZURE_STORAGE_ACCOUNT_NAME"
  /\ account_key self = env !! "AZURE_STORAGE_ACCOUNT_KEY"
  /\ container_name self = env !! "AZURE_STORAGE_CONTAINER_NAME"
  /\ forallb truthy [account_name self; account_key self; container_name self] = true
  /\ BlobServiceClient_new
       ("https://" +:+ fmt (account_name self) +:+ ".blob.core.windows.net")
       (account_key self) = Ok (blob_service_client self)
  /\ bsc_get_container_client (blob_service_client self) (container_name self)
     = Ok (container_client self).
Proof.
  rewrite BlobStoragePlugin_init_unfold.
  destruct (forallb truthy ((env !!.) <$> storage_vars)) eqn:Hs; [|discriminate].
  destruct (BlobServiceClient_new _ _) as [bsc|e] eqn:Hb; [|discriminate].
  destruct (bsc_get_container_client bsc _) as [cc|e] eqn:Hc; [|discriminate].
  intros Heq. injection Heq as <- <-. cbn [account_name account_key container_name
                                            blob_service_client container_client].
  repeat split; assumption.
Qed.

(** X6: any failure while the plugin is built (missing settings, or
    an exception of the storage SDK) is caught by [main]: the process
    prints the one line ["Failed to initialize BlobStoragePlugin: "]
    followed by the exception's text and ends with status 0, without
    reading a line of input. *)
Theorem plugin_failure_is_reported env stdin svc e w' :
  forallb truthy ((env !!.) <$> openai_vars) = true ->
  AzureChatCompletion "chat-gpt" (env !! "AZURE_OPENAI_DEPLOYMENT_NAME")
                      (env !! "AZURE_OPENAI_ENDPOINT")
                      (env !! "AZURE_OPENAI_API_KEY") "2025-01-01-preview" = Ok svc ->
  BlobStoragePlugin_init env world0 = (Raise e, w') ->
  run_process (main env stdin) =
  (0%Z, [Print ("Failed to initialize BlobStoragePlugin: " +:+ exc_str e)]).
Proof.
  intros Ho Hsvc Hinit. unfold run_process. rewrite main_unfold, Ho, Hsvc.
  pose proof (BlobStoragePlugin_init_keeps_state env world0) as Hw.
  rewrite Hinit in Hw |- *. cbn [snd] in Hw. subst w'. reflexivity.
Qed.

(** X7: a failure of the chat service constructor is not caught: with
    the three Azure OpenAI settings present, the process prints
    nothing of its own, dies on that exception with status 1, and
    never looks at the storage settings or the input. *)
Theorem chat_service_failure_is_fatal env stdin e :
  forallb truthy ((env !!.) <$> openai_vars) = true ->
  AzureChatCompletion "chat-gpt" (env !! "AZURE_OPENAI_DEPLOYMENT_NAME")
                      (env !! "AZURE_OPENAI_ENDPOINT")
                      (env !! "AZURE_OPENAI_API_KEY") "2025-01-01-preview" = Raise e ->
  run_process (main env stdin) = (1%Z, [Traceback e]).
Proof.
  intros Ho Hsvc. unfold run_process. rewrite main_unfold, Ho, Hsvc. reflexivity.
Qed.

(** ** Further properties of the chat loop *)

(** X8: the line is compared as typed, without stripping: an exit
    command has exactly four characters, so [exit] followed by a space
    is a user turn. *)
Theorem exit_command_has_four_characters line :
  is_exit line = true -> String.length line = 4.
Proof.
  unfold is_exit. intros H. apply bool_decide_eq_true in H.
  rewrite <- lower_length.
  apply elem_of_cons in H as [->|H]; [reflexivity|].
  apply list_elem_of_singleton in H as ->. reflexivity.
Qed.

Lemma chat_turn_returns kernel svc others line w :
  services kernel = svc :: others ->
  exists w', chat_turn kernel line w = (Ok tt, w').
Proof.
  intros Hs. unfold chat_turn, mbind, M_bind, add_user_message, add_message.
  rewrite (complete_turn_unfold _ _ _ _ Hs).
  destruct (get_chat_message_content svc (Some kernel) _) as [[m|e] w']; eauto.
Qed.

(** X9: a session ends in one of two ways, whatever the chat service
    does: normally, when some line is an exit command, and otherwise
    on the [EOFError] of [input] once the lines run out.  No failure
    of a completion request ends it. *)
Theorem session_ends_by_exit_or_end_of_input kernel svc others stdin w :
  services kernel = svc :: others ->
  fst (chat_loop kernel stdin w) =
  if existsb is_exit stdin then Ok tt
  else Raise (mkExc "EOFError" "EOF when reading a line").
Proof.
  intros Hs. revert w. induction stdin as [|line rest IH]; intros w; [reflexivity|].
  cbn [existsb]. rewrite chat_loop_unfold.
  destruct (is_exit line) eqn:Hx; [reflexivity|]. cbn [orb].
  destruct (chat_turn_returns kernel svc others line (prompted w) Hs) as [w1 Ht].
  unfold chat_turn, mbind, M_bind, add_user_message, add_message in Ht.
  cbn [stdout history prompted] in Ht.
  unfold mbind, M_bind, user_said, prompted. cbn [stdout history].
  destruct (complete_turn kernel _) as [[[]|e] w2]; [apply IH | discriminate Ht].
Qed.

(** X10: the lines that follow an exit command are never read: the
    session is the same with or without them. *)
Theorem lines_after_exit_are_not_read kernel before cmd after w :
  is_exit cmd = true ->
  chat_loop kernel (before ++ cmd :: after) w = chat_loop kernel (before ++ [cmd]) w.
Proof.
  intros Hx. revert w. induction before as [|line rest IH]; intros w.
  - cbn [app]. rewrite !chat_loop_unfold, Hx. reflexivity.
  - rewrite <- !app_comm_cons, !chat_loop_unfold.
    destruct (is_exit line); [reflexivity|].
    unfold mbind, M_bind.
    destruct (complete_turn kernel _) as [[[]|e] w1]; [apply IH | reflexivity].
Qed.

(** ** Further properties of the connection test *)

Lemma diagnostics_unfold env w :
  diagnostics env w = (Ok tt, mkWorld (stdout w ++ diagnostic_lines env) (history w)).
Proof.
  unfold diagnostics, diagnostic_lines, mbind, M_bind, print, emit. cbn [stdout history].
  now rewrite <- !app_assoc.
Qed.

(** X11: the connection test cannot fail as a process: whatever the
    constructor and the request do, [main] returns, so the exit status
    is 0 even when the connection is not established. *)
Theorem connection_test_always_exits_zero env :
  exit_code (run_process (test_main env)) = 0%Z.
Proof.
  assert (H : fst (test_main env world0) = Ok tt).
  { unfold test_main, mbind at 1, M_bind at 1.
    rewrite diagnostics_unfold. unfold try_except.
    match goal with |- context [match ?b ?w with (r, w') => _ end] =>
      destruct (b w) as [[[]|e] w1] end; reflexivity. }
  unfold exit_code, run_process.
  destruct (test_main env world0) as [[[]|e] w1]; [reflexivity | discriminate H].
Qed.

(** X12: when the chat service constructor raises, the connection
    test prints its four diagnostic lines and then the one line
    ["Connection Failed: "] followed by the exception's text; no
    request is sent. *)
Theorem connection_test_reports_constructor_failure env e :
  AzureChatCompletion "test" (env !! "AZURE_OPENAI_DEPLOYMENT_NAME")
                      (env !! "AZURE_OPENAI_ENDPOINT")
                      (env !! "AZURE_OPENAI_API_KEY") "2025-01-01-preview" = Raise e ->
  run_process (test_main env) =
  (0%Z, diagnostic_lines env ++ [Print ("Connection Failed: " +:+ exc_str e)]).
Proof.
  intros Hsvc. unfold run_process, test_main, mbind at 1, M_bind at 1.
  rewrite diagnostics_unfold. unfold try_except, mbind, M_bind, call. rewrite Hsvc.
  reflexivity.
Qed.

(** X13: when the constructor succeeds, the request is made with a
    new history that holds the single user message [Hello], after the
    lines [Service object created.] and [Sending request...]; the
    last line printed is the verdict of that one request,
    ["Success! Response: "] with the reply or ["Connection Failed: "]
    with the exception's text. *)
Theorem connection_test_sends_one_request env svc r w' :
  AzureChatCompletion "test" (env !! "AZURE_OPENAI_DEPLOYMENT_NAME")
                      (env !! "AZURE_OPENAI_ENDPOINT")
                      (env !! "AZURE_OPENAI_API_KEY") "2025-01-01-preview" = Ok svc ->
  get_chat_message_content svc None
    (mkWorld (diagnostic_lines env ++ [Print "Service object created.";
                                        Print "Sending request..."])
             [mkMsg User "Hello"]) = (r, w') ->
  run_process (test_main env) = (0%Z, stdout w' ++ [Print (verdict r)]).
Proof.
  intros Hsvc Hreq. unfold run_process, test_main, mbind at 1, M_bind at 1.
  rewrite diagnostics_unfold.
  unfold try_except, mbind, M_bind, call, print, emit, ChatHistory_new,
    add_user_message, add_message.
  rewrite Hsvc. cbn [stdout history world0 app].
  rewrite <- app_assoc. cbn [app]. rewrite Hreq.
  destruct r as [m|e']; reflexivity.
Qed.

Lemma api_key_line_unfold (o : option string) :
  api_key_line o =
  if truthy o then "API Key: " +:+ slice_to 5 (fmt o) +:+ "..." else "API Key: None".
Proof. destruct o as [k|]; reflexivity. Qed.

(** X14: the key line reads [API Key: None] exactly when the key is
    unset or empty; a key that is present never prints as that line,
    not even the key [None]. *)
Theorem key_line_none_iff_key_missing (o : option string) :
  api_key_line o = "API Key: None" <-> truthy o = false.
Proof.
  rewrite api_key_line_unfold. split.
  - destruct (truthy o) eqn:Ht; [|reflexivity]. intros H. exfalso.
    destruct o as [k|]; [|discriminate Ht]. cbn [fmt] in H.
    change "API Key: None" with ("API Key: " +:+ "None") in H.
    apply (inj (String.app "API Key: ")) in H.
    destruct k as [|c1 [|c2 [|c3 [|c4 [|c5 k]]]]]; cbn in Ht; try discriminate Ht;
      cbv [slice_to append] in H; discriminate H.
  - intros ->. reflexivity.
Qed.

(** ** Further properties of the transcript *)

(** X15: a turn whose completion request succeeds prints the reply as
    ["Agent: "], the reply's text and an empty line, and records the
    reply last: the history then reads as before, then the user
    message, then whatever the framework added, then the reply. *)
Theorem chat_turn_records_the_reply kernel svc others line w m w' :
  services kernel = svc :: others ->
  get_chat_message_content svc (Some kernel) (user_said line w) = (Ok m, w') ->
  chat_turn kernel line w = (Ok tt, answered m w')
  /\ stdout (answered m w') = stdout w' ++ [Print ("Agent: " +:+ msg_content m +:+ nl)]
  /\ exists added,
       history (answered m w') = history w ++ [mkMsg User line] ++ added ++ [m].
Proof.
  intros Hs Hreq. split; [|split; [reflexivity|]].
  - unfold chat_turn, mbind, M_bind, add_user_message, add_message.
    change (mkWorld (stdout w) (history w ++ [mkMsg User line])) with (user_said line w).
    rewrite (complete_turn_unfold _ _ _ _ Hs), Hreq. reflexivity.
  - pose proof (framework_appends svc (Some kernel) (user_said line w)) as [added Ha].
    rewrite Hreq in Ha. cbn [snd user_said history] in Ha.
    exists added. cbn [answered history]. rewrite Ha, <- !app_assoc. reflexivity.
Qed.

(** X16: once the shell has started, the system message stays the
    first entry of the history to the end of the session. *)
Theorem system_message_stays_first env stdin svc self w :
  forallb truthy ((env !!.) <$> openai_vars) = true ->
  AzureChatCompletion "chat-gpt" (env !! "AZURE_OPENAI_DEPLOYMENT_NAME")
                      (env !! "AZURE_OPENAI_ENDPOINT")
                      (env !! "AZURE_OPENAI_API_KEY") "2025-01-01-preview" = Ok svc ->
  BlobStoragePlugin_init env w = (Ok self, w) ->
  [mkMsg System system_prompt] `prefix_of` history (snd (main env stdin w)).
Proof.
  intros Ho Hsvc Hinit. rewrite main_unfold, Ho, Hsvc, Hinit.
  apply (appends_only_chat_loop _ stdin (started w)).
Qed.

(** X17: every line handled as a user turn is in the history the
    session ends with, as a user message, after everything the history
    held before and in the order the lines were typed. *)
Theorem user_lines_are_recorded kernel svc others stdin w :
  services kernel = svc :: others ->
  exists added,
    history (snd (chat_loop kernel stdin w)) = history w ++ added
    /\ (mkMsg User <$> turns stdin) `sublist_of` added.
Proof.
  intros Hs. revert w. induction stdin as [|line rest IH]; intros w.
  - exists []. split; [cbn; now rewrite app_nil_r | apply sublist_nil_l].
  - rewrite chat_loop_unfold. cbn [turns].
    destruct (is_exit line).
    + exists []. split; [cbn; now rewrite app_nil_r | apply sublist_nil_l].
    + unfold mbind, M_bind.
      pose proof (appends_only_complete_turn kernel (user_said line (prompted w)))
        as [k Hk].
      rewrite (complete_turn_unfold _ _ _ _ Hs) in Hk |- *.
      destruct (get_chat_message_content svc (Some kernel) _) as [[m|e] w1];
        cbn [snd user_said prompted history] in Hk;
        match goal with |- context [chat_loop kernel rest ?w2] =>
          destruct (IH w2) as (added & Hfin & Hsub) end;
        (exists ([mkMsg User line] ++ k ++ added); split;
         [ rewrite Hfin, Hk, <- !app_assoc; reflexivity
         | rewrite fmap_cons; cbn [app]; apply sublist_skip;
           now apply sublist_inserts_l ]).
Qed.

End Agent.

(** * The programs on the sample collaborators *)

Local Abbreviation sample_tool := (invoke_tool string Sample.read_csv Sample.to_markdown).
Local Abbreviation sample_tool_body := (tool_body string Sample.read_csv Sample.to_markdown).
Local Abbreviation sample_read_csv_blob :=
  (read_csv_blob string Sample.read_csv Sample.to_markdown).
Local Abbreviation sample_main :=
  (main Sample.BlobServiceClient_new Sample.AzureChatCompletion
        Sample.get_chat_message_content).
Local Abbreviation sample_chat_loop := (chat_loop Sample.get_chat_message_content).
Local Abbreviation sample_chat_turn := (chat_turn Sample.get_chat_message_content).
Local Abbreviation sample_test_main :=
  (test_main Sample.AzureChatCompletion Sample.get_chat_message_content).
Local Abbreviation banner :=
  [Print "--- Azure Blob Storage Agent (Semantic Kernel) ---";
   Print ("Type 'exit' to quit." +:+ nl)].

(** ** Scenarios of the specification *)

Example list_blobs_two_names :
  list_blobs (Sample.plugin Sample.container) world0 = (Ok "a.csv, b.csv", world0).
Proof. reflexivity. Qed.

Example list_blobs_empty_container :
  list_blobs (Sample.plugin Sample.empty_container) world0 = (Ok "No blobs found.", world0).
Proof. reflexivity. Qed.

Example read_csv_blob_absent_blob :
  fst (sample_read_csv_blob (Sample.plugin Sample.container) "missing.csv" world0)
  = Ok "Error: Blob 'missing.csv' does not exist in container 'csv-data'.".
Proof. reflexivity. Qed.

Example read_csv_blob_twelve_rows :
  fst (sample_read_csv_blob (Sample.plugin Sample.container) "a.csv" world0)
  = Ok (join nl ["| n |"; "| 1 |"; "| 2 |"; "| 3 |"; "| 4 |"; "| 5 |";
                 "| 6 |"; "| 7 |"; "| 8 |"; "| 9 |"; "| 10 |"]).
Proof. vm_compute. reflexivity. Qed.

Example exit_lines :
  map is_exit ["exit"; "QUIT"; "Exit"; "quit "; "exit now"; ""; "q"]
  = [true; true; true; false; false; false; false].
Proof. vm_compute. reflexivity. Qed.

Example exit_status_of_a_session :
  exit_code (run_process (sample_main Sample.env ["EXIT"; "unread"])) = 0%Z.
Proof. vm_compute. reflexivity. Qed.

Example session_with_a_failed_turn :
  run_process (sample_main Sample.env ["hi"; "crash"; "hello again"; "Quit"; "unread"])
  = (0%Z, banner ++ [Prompt "User: "; Print ("Agent: You said: hi" +:+ nl);
                     Prompt "User: "; Print "Error during chat: service unavailable";
                     Prompt "User: "; Print ("Agent: You said: hello again" +:+ nl);
                     Prompt "User: "]).
Proof. vm_compute. reflexivity. Qed.

Example end_of_input_is_a_crash :
  run_process (sample_main Sample.env ["hi"])
  = (1%Z, banner ++ [Prompt "User: "; Print ("Agent: You said: hi" +:+ nl);
                     Prompt "User: ";
                     Traceback (mkExc "EOFError" "EOF when reading a line")]).
Proof. vm_compute. reflexivity. Qed.

Lemma sample_chat_appends svc k :
  appends_only (Sample.get_chat_message_content svc k).
Proof.
  intros w. unfold Sample.get_chat_message_content.
  destruct (last (history w)) as [m|]; [|reflexivity].
  repeat (destruct (String.eqb (msg_content m) _)); cbn [snd Sample.tool_round history];
    first [reflexivity | now apply prefix_app_r].
Qed.

(** ** C1 *)

(** C1, as stated, fails: the download of [b.csv] raises, and
    [read_csv_blob] answers ["Error reading blob: boom"], which does
    not begin with ["Error:"]; likewise for a listing that raises. *)
Lemma error_prefix_counterexample :
  sample_tool_body (Sample.plugin Sample.container) (Call_read_csv_blob "b.csv") world0
  = (Raise (mkExc "HttpResponseError" "boom"), notice "b.csv" world0)
  /\ sample_tool (Sample.plugin Sample.container) (Call_read_csv_blob "b.csv") world0
     = (Ok "Error reading blob: boom", notice "b.csv" world0)
  /\ String.prefix "Error:" "Error reading blob: boom" = false
  /\ sample_tool (Sample.plugin Sample.offline_container) Call_list_blobs world0
     = (Ok "Error listing blobs: connection refused", world0)
  /\ String.prefix "Error:" "Error listing blobs: connection refused" = false.
Proof. repeat split. Qed.

Lemma tool_failure_is_returned_as_text_witness :
  sample_tool_body (Sample.plugin Sample.container) (Call_read_csv_blob "b.csv") world0
  = (Raise (mkExc "HttpResponseError" "boom"), notice "b.csv" world0)
  /\ sample_tool (Sample.plugin Sample.container) (Call_read_csv_blob "b.csv") world0
     = (Ok "Error reading blob: boom", notice "b.csv" world0).
Proof.
  split; [reflexivity|].
  exact (proj1 (tool_failure_is_returned_as_text
                  string Sample.read_csv Sample.to_markdown
                  (Sample.plugin Sample.container) (Call_read_csv_blob "b.csv") world0
                  (mkExc "HttpResponseError" "boom") (notice "b.csv" world0) eq_refl)).
Defined.

(** ** C2 *)

Lemma read_csv_blob_missing_witness :
  exists s,
    sample_read_csv_blob (Sample.plugin Sample.container) "missing.csv" world0
    = (Ok s, notice "missing.csv" world0)
    /\ s = "Error: Blob 'missing.csv' does not exist in container 'csv-data'."
    /\ String.prefix "Error:" s = true
    /\ contains "does not exist" s = true.
Proof.
  apply (read_csv_blob_missing string Sample.read_csv Sample.to_markdown
           (Sample.plugin Sample.container) "missing.csv" Sample.blob_absent world0);
    reflexivity.
Defined.

(** ** C3 *)

(** C3, as stated, fails in its "exactly when": a container that holds
    one blob named [No blobs found.] is not empty, and [list_blobs]
    returns that text for it. *)
Lemma no_blobs_found_counterexample :
  cc_list_blobs (container_client (Sample.plugin Sample.odd_container))
  = Ok ["No blobs found."]
  /\ list_blobs (Sample.plugin Sample.odd_container) world0 = (Ok "No blobs found.", world0)
  /\ ["No blobs found."] <> @nil string.
Proof. repeat split. discriminate. Qed.

Lemma list_blobs_joins_names_witness :
  cc_list_blobs (container_client (Sample.plugin Sample.container)) = Ok ["a.csv"; "b.csv"]
  /\ exists s,
      list_blobs (Sample.plugin Sample.container) world0 = (Ok s, world0)
      /\ (["a.csv"; "b.csv"] = [] -> s = "No blobs found.")
      /\ (["a.csv"; "b.csv"] <> [] -> s = join ", " ["a.csv"; "b.csv"])
      /\ (s = "No blobs found." -> ["a.csv"; "b.csv"] = [] \/ ["a.csv"; "b.csv"] = ["No blobs found."]).
Proof.
  split; [reflexivity|].
  apply (list_blobs_joins_names (Sample.plugin Sample.container) ["a.csv"; "b.csv"] world0).
  reflexivity.
Defined.

(** ** C4 *)

Lemma read_csv_blob_previews_ten_rows_witness :
  Sample.read_csv (list_byte_of_string Sample.csv_text) = Ok Sample.frame
  /\ sample_read_csv_blob (Sample.plugin Sample.container) "a.csv" world0
     = (Ok (Sample.to_markdown (head 10 Sample.frame)), notice "a.csv" world0)
  /\ length (df_rows Sample.frame) = 12
  /\ length (df_rows (head 10 Sample.frame)) = 10.
Proof.
  assert (Hparse : Sample.read_csv (list_byte_of_string Sample.csv_text) = Ok Sample.frame).
  { vm_compute. reflexivity. }
  split; [exact Hparse|].
  destruct (read_csv_blob_previews_ten_rows
              string Sample.read_csv Sample.to_markdown
              (Sample.plugin Sample.container) "a.csv" Sample.blob_a
              (list_byte_of_string Sample.csv_text) Sample.frame world0
              eq_refl eq_refl eq_refl Hparse)
    as (Hret & _ & _ & Hlen & _).
  split; [exact Hret|]. split; [reflexivity | exact Hlen].
Defined.

(** ** C5 *)

(** C5, as stated, fails for the API version: the sample environment
    sets the three Azure OpenAI variables and the three storage
    variables and nothing else, so every API-version variable is
    missing from it, and the shell starts all the same. *)
Lemma api_version_counterexample :
  Sample.env !! "AZURE_OPENAI_API_VERSION" = None
  /\ size Sample.env = 6
  /\ forallb truthy ((Sample.env !!.) <$> openai_vars ++ storage_vars) = true
  /\ run_process (sample_main Sample.env ["exit"]) = (0%Z, banner ++ [Prompt "User: "]).
Proof. repeat split; vm_compute; reflexivity. Qed.

Lemma missing_configuration_stops_startup_witness :
  "AZURE_STORAGE_ACCOUNT_KEY" ∈ openai_vars ++ storage_vars
  /\ truthy (delete "AZURE_STORAGE_ACCOUNT_KEY" Sample.env !! "AZURE_STORAGE_ACCOUNT_KEY") = false
  /\ run_process (sample_main (delete "AZURE_STORAGE_ACCOUNT_KEY" Sample.env) ["hi"; "exit"])
     = (0%Z, [Print "Failed to initialize BlobStoragePlugin: Azure Blob Storage credentials are missing in .env file."]).
Proof.
  assert (Hin : "AZURE_STORAGE_ACCOUNT_KEY" ∈ openai_vars ++ storage_vars).
  { apply list_elem_of_In. vm_compute. tauto. }
  assert (Hv : truthy (delete "AZURE_STORAGE_ACCOUNT_KEY" Sample.env
                         !! "AZURE_STORAGE_ACCOUNT_KEY") = false).
  { vm_compute. reflexivity. }
  split; [exact Hin|]. split; [exact Hv|].
  destruct (missing_configuration_stops_startup
              Sample.BlobServiceClient_new Sample.AzureChatCompletion
              Sample.get_chat_message_content
              (delete "AZURE_STORAGE_ACCOUNT_KEY" Sample.env) ["hi"; "exit"]
              "AZURE_STORAGE_ACCOUNT_KEY" Hin Hv)
    as [[Ho _]|[(svc & _ & Hrun)|(e & He & _)]].
  - vm_compute in Ho. discriminate Ho.
  - exact Hrun.
  - vm_compute in He. discriminate He.
Defined.

(** ** C6 *)

Lemma provider_failure_ends_only_the_turn_witness :
  Sample.get_chat_message_content Sample.service (Some Sample.kernel)
    (user_said "list then crash" (prompted world0))
  = (Raise Sample.unavailable,
     Sample.tool_round (user_said "list then crash" (prompted world0)))
  /\ sample_chat_turn Sample.kernel "list then crash" (prompted world0)
     = (Ok tt, mkWorld [Prompt "User: "; Print "Error during chat: service unavailable"]
                       [mkMsg User "list then crash"; mkMsg Assistant "call list_blobs";
                        mkMsg Tool "a.csv, b.csv"])
  /\ sample_chat_loop Sample.kernel ["list then crash"; "exit"] world0
     = sample_chat_loop Sample.kernel ["exit"]
         (mkWorld [Prompt "User: "; Print "Error during chat: service unavailable"]
                  [mkMsg User "list then crash"; mkMsg Assistant "call list_blobs";
                   mkMsg Tool "a.csv, b.csv"]).
Proof.
  split; [reflexivity|].
  destruct (provider_failure_ends_only_the_turn
              Sample.get_chat_message_content sample_chat_appends
              Sample.kernel Sample.service [] "list then crash" ["exit"] world0
              Sample.unavailable
              (Sample.tool_round (user_said "list then crash" (prompted world0)))
              eq_refl eq_refl eq_refl)
    as (Hturn & _ & _ & _ & Hloop).
  split; [exact Hturn | exact Hloop].
Defined.

(** ** C7 *)

Lemma transcript_is_append_only_witness :
  (forall svc k, appends_only (Sample.get_chat_message_content svc k))
  /\ appends_only (sample_chat_loop Sample.kernel ["hi"; "list"; "crash"; "quit"])
  /\ history (snd (sample_chat_loop Sample.kernel ["hi"; "list"; "crash"; "quit"]
                     (mkWorld [] [mkMsg System system_prompt])))
     = [mkMsg System system_prompt;
        mkMsg User "hi"; mkMsg Assistant "You said: hi";
        mkMsg User "list"; mkMsg Assistant "call list_blobs"; mkMsg Tool "a.csv, b.csv";
        mkMsg Assistant "The container holds a.csv and b.csv.";
        mkMsg User "crash"].
Proof.
  split; [exact sample_chat_appends|]. split; [|vm_compute; reflexivity].
  apply (transcript_is_append_only Sample.get_chat_message_content sample_chat_appends).
Defined.

(** ** C8 *)

Lemma exit_commands_end_the_session_witness :
  is_exit "EXIT" = true
  /\ sample_chat_loop Sample.kernel ["EXIT"; "unread"] world0 = (Ok tt, prompted world0)
  /\ run_process (sample_chat_loop Sample.kernel ["EXIT"; "unread"])
     = (0%Z, [Prompt "User: "])
  /\ is_exit "Quit" = true
  /\ is_exit "exit now" = false
  /\ sample_chat_loop Sample.kernel ["exit now"; "Quit"] world0
     = (complete_turn Sample.get_chat_message_content Sample.kernel;;
        sample_chat_loop Sample.kernel ["Quit"]) (user_said "exit now" (prompted world0)).
Proof.
  destruct (exit_commands_end_the_session
              Sample.get_chat_message_content Sample.kernel "EXIT" ["unread"] world0)
    as [Hiff Hrun].
  destruct (exit_commands_end_the_session
              Sample.get_chat_message_content Sample.kernel "Quit" [] world0)
    as [Hiff' _].
  destruct (exit_commands_end_the_session
              Sample.get_chat_message_content Sample.kernel "exit now" ["Quit"] world0)
    as [Hno Hturn].
  change (bool_decide ("EXIT" ∈ exit_commands)) with true in Hrun.
  change (bool_decide ("exit now" ∈ exit_commands)) with false in Hturn.
  destruct Hrun as [Hret Hproc].
  split; [apply Hiff; compute_done|]. split; [exact Hret|]. split; [exact Hproc|].
  split; [apply Hiff'; compute_done|]. split; [|exact Hturn].
  apply not_true_is_false. intros Hx. apply Hno in Hx.
  apply (bool_decide_pack _) in Hx. vm_compute in Hx. exact Hx.
Defined.

(** ** C9 *)

Lemma list_blobs_never_raises_witness :
  exists s,
    list_blobs (Sample.plugin Sample.offline_container) world0 = (Ok s, world0)
    /\ s = "Error listing blobs: connection refused"
    /\ String.prefix "Error listing blobs:" s = true.
Proof.
  destruct (list_blobs_never_raises (Sample.plugin Sample.offline_container) world0)
    as (s & Hret & Herr).
  destruct (Herr (mkExc "ServiceRequestError" "connection refused") eq_refl)
    as (Hs & Hp & _).
  exists s. split; [exact Hret|]. split; [exact Hs | exact Hp].
Defined.

(** ** C10 *)

(** X18: the diagnostic lines read no more than five characters of
    the key: two environments that differ only in the key, with keys
    that agree on their first five characters, give the same four
    lines. *)
Lemma diagnostics_read_five_characters (env : gmap string string) (k1 k2 : string) w :
  slice_to 5 k1 = slice_to 5 k2 ->
  diagnostics (<["AZURE_OPENAI_API_KEY" := k1]> env) w
  = diagnostics (<["AZURE_OPENAI_API_KEY" := k2]> env) w.
Proof.
  intros H. unfold diagnostics.
  rewrite !lookup_insert_eq.
  rewrite !(lookup_insert_ne _ "AZURE_OPENAI_API_KEY") by discriminate.
  now rewrite (api_key_line_reads_five_characters k1 k2 H).
Qed.

(** C10, where the code falls short of it: the environment gives the
    key [abc]; the slice [api_key[:5]] is then the whole key, and the
    key line prints it in full. *)
Theorem short_api_key_is_printed_in_full :
  Sample.env_short_key !! "AZURE_OPENAI_API_KEY" = Some "abc"
  /\ slice_to 5 "abc" = "abc"
  /\ api_key_line (Some "abc") = "API Key: abc..."
  /\ output (run_process (diagnostics Sample.env_short_key))
     = [Print "Testing Azure OpenAI Connection...";
        Print "Endpoint: https://demo.openai.azure.com/";
        Print "Deployment: gpt-4o";
        Print "API Key: abc..."]
  /\ output (run_process (sample_test_main Sample.env_short_key))
     = [Print "Testing Azure OpenAI Connection...";
        Print "Endpoint: https://demo.openai.azure.com/";
        Print "Deployment: gpt-4o";
        Print "API Key: abc...";
        Print "Service object created.";
        Print "Sending request...";
        Print "Success! Response: You said: Hello"].
Proof.
  split; [vm_compute; reflexivity|]. split; [reflexivity|]. split; [reflexivity|].
  split; vm_compute; reflexivity.
Qed.

(** * The further properties on the sample collaborators *)

Lemma read_csv_blob_shows_short_file_whole_witness :
  Sample.read_csv (list_byte_of_string Sample.small_csv_text) = Ok Sample.small_frame
  /\ length (df_rows Sample.small_frame) <= 10
  /\ sample_read_csv_blob (Sample.plugin Sample.small_container) "small.csv" world0
     = (Ok (Sample.to_markdown Sample.small_frame), notice "small.csv" world0).
Proof.
  assert (Hparse : Sample.read_csv (list_byte_of_string Sample.small_csv_text)
                   = Ok Sample.small_frame) by (vm_compute; reflexivity).
  assert (Hlen : length (df_rows Sample.small_frame) <= 10) by (cbn; lia).
  split; [exact Hparse|]. split; [exact Hlen|].
  exact (read_csv_blob_shows_short_file_whole
           string Sample.read_csv Sample.to_markdown
           (Sample.plugin Sample.small_container) "small.csv" Sample.blob_small
           (list_byte_of_string Sample.small_csv_text) Sample.small_frame world0
           eq_refl eq_refl eq_refl Hparse Hlen).
Defined.

Lemma list_blobs_mentions_every_name_witness :
  "b.csv" ∈ ["a.csv"; "b.csv"]
  /\ exists s, list_blobs (Sample.plugin Sample.container) world0 = (Ok s, world0)
               /\ contains "b.csv" s = true.
Proof.
  assert (Hin : "b.csv" ∈ ["a.csv"; "b.csv"]).
  { apply list_elem_of_further, list_elem_of_here. }
  split; [exact Hin|].
  exact (list_blobs_mentions_every_name (Sample.plugin Sample.container)
           ["a.csv"; "b.csv"] "b.csv" world0 eq_refl Hin).
Defined.

Lemma list_blobs_answer_determines_names_witness :
  Forall (fun n => has_comma n = false) (["a.csv"; "b.csv"] ++ ["a.csv"; "b.csv"])
  /\ ("No blobs found." ∉ ["a.csv"; "b.csv"] ++ ["a.csv"; "b.csv"])
  /\ fst (list_blobs (Sample.plugin Sample.container) world0)
     = fst (list_blobs (Sample.plugin (mkContainerClient (Ok ["a.csv"; "b.csv"])
                                                          (fun _ => Ok Sample.blob_absent)))
                       (prompted world0))
  /\ ["a.csv"; "b.csv"] = ["a.csv"; "b.csv"].
Proof.
  assert (Hc : Forall (fun n => has_comma n = false)
                      (["a.csv"; "b.csv"] ++ ["a.csv"; "b.csv"])).
  { repeat constructor. }
  assert (Hn : "No blobs found." ∉ ["a.csv"; "b.csv"] ++ ["a.csv"; "b.csv"]).
  { intros H. apply list_elem_of_In in H. cbn in H.
    repeat (destruct H as [H|H]; [discriminate H|]). exact H. }
  split; [exact Hc|]. split; [exact Hn|]. split; [reflexivity|].
  exact (list_blobs_answer_determines_names
           (Sample.plugin Sample.container)
           (Sample.plugin (mkContainerClient (Ok ["a.csv"; "b.csv"])
                                             (fun _ => Ok Sample.blob_absent)))
           ["a.csv"; "b.csv"] ["a.csv"; "b.csv"] world0 (prompted world0)
           eq_refl eq_refl Hc Hn eq_refl).
Defined.

Lemma constructed_plugin_is_configured_witness :
  BlobStoragePlugin_init Sample.BlobServiceClient_new Sample.env world0
  = (Ok (Sample.plugin Sample.container), world0)
  /\ container_name (Sample.plugin Sample.container)
     = Sample.env !! "AZURE_STORAGE_CONTAINER_NAME"
  /\ bsc_get_container_client (blob_service_client (Sample.plugin Sample.container))
                              (container_name (Sample.plugin Sample.container))
     = Ok (container_client (Sample.plugin Sample.container)).
Proof.
  assert (Hinit : BlobStoragePlugin_init Sample.BlobServiceClient_new Sample.env world0
                  = (Ok (Sample.plugin Sample.container), world0)).
  { vm_compute. reflexivity. }
  split; [exact Hinit|].
  destruct (constructed_plugin_is_configured
              Sample.BlobServiceClient_new Sample.env world0
              (Sample.plugin Sample.container) world0 Hinit)
    as (_ & _ & _ & Hname & _ & _ & Hcc).
  split; [exact Hname | exact Hcc].
Defined.

Lemma plugin_failure_is_reported_witness :
  BlobStoragePlugin_init Sample.BlobServiceClient_down Sample.env world0
  = (Raise (mkExc "ServiceRequestError" "connection refused"), world0)
  /\ run_process (main Sample.BlobServiceClient_down Sample.AzureChatCompletion
                       Sample.get_chat_message_content Sample.env ["hi"; "exit"])
     = (0%Z, [Print "Failed to initialize BlobStoragePlugin: connection refused"]).
Proof.
  assert (Hinit : BlobStoragePlugin_init Sample.BlobServiceClient_down Sample.env world0
                  = (Raise (mkExc "ServiceRequestError" "connection refused"), world0)).
  { vm_compute. reflexivity. }
  assert (Ho : forallb truthy ((Sample.env !!.) <$> openai_vars) = true).
  { vm_compute. reflexivity. }
  split; [exact Hinit|].
  exact (plugin_failure_is_reported
           Sample.BlobServiceClient_down Sample.AzureChatCompletion
           Sample.get_chat_message_content Sample.env ["hi"; "exit"] Sample.service
           (mkExc "ServiceRequestError" "connection refused") world0
           Ho eq_refl Hinit).
Defined.

Lemma chat_service_failure_is_fatal_witness :
  forallb truthy ((Sample.env !!.) <$> openai_vars) = true
  /\ run_process (main Sample.BlobServiceClient_new Sample.AzureChatCompletion_invalid
                       Sample.get_chat_message_content Sample.env ["hi"; "exit"])
     = (1%Z, [Traceback (mkExc "ServiceInitializationError"
                               "Failed to create Azure OpenAI settings.")]).
Proof.
  assert (Ho : forallb truthy ((Sample.env !!.) <$> openai_vars) = true).
  { vm_compute. reflexivity. }
  split; [exact Ho|].
  exact (chat_service_failure_is_fatal
           Sample.BlobServiceClient_new Sample.AzureChatCompletion_invalid
           Sample.get_chat_message_content Sample.env ["hi"; "exit"]
           (mkExc "ServiceInitializationError" "Failed to create Azure OpenAI settings.")
           Ho eq_refl).
Defined.

Lemma exit_command_has_four_characters_witness :
  is_exit "QuIt" = true /\ String.length "QuIt" = 4.
Proof.
  assert (Hx : is_exit "QuIt" = true) by (vm_compute; reflexivity).
  split; [exact Hx | exact (exit_command_has_four_characters "QuIt" Hx)].
Defined.

Lemma session_ends_by_exit_or_end_of_input_witness :
  services Sample.kernel = [Sample.service]
  /\ fst (sample_chat_loop Sample.kernel ["hi"; "crash"] world0)
     = Raise (mkExc "EOFError" "EOF when reading a line")
  /\ fst (sample_chat_loop Sample.kernel ["hi"; "crash"; "Exit"] world0) = Ok tt.
Proof.
  split; [reflexivity|]. split.
  - exact (session_ends_by_exit_or_end_of_input
             Sample.get_chat_message_content Sample.kernel Sample.service []
             ["hi"; "crash"] world0 eq_refl).
  - exact (session_ends_by_exit_or_end_of_input
             Sample.get_chat_message_content Sample.kernel Sample.service []
             ["hi"; "crash"; "Exit"] world0 eq_refl).
Defined.

Lemma lines_after_exit_are_not_read_witness :
  is_exit "exit" = true
  /\ sample_chat_loop Sample.kernel (["hi"] ++ "exit" :: ["crash"; "list"]) world0
     = sample_chat_loop Sample.kernel (["hi"] ++ ["exit"]) world0.
Proof.
  assert (Hx : is_exit "exit" = true) by (vm_compute; reflexivity).
  split; [exact Hx|].
  exact (lines_after_exit_are_not_read
           Sample.get_chat_message_content Sample.kernel ["hi"] "exit" ["crash"; "list"]
           world0 Hx).
Defined.

Lemma connection_test_reports_constructor_failure_witness :
  run_process (test_main Sample.AzureChatCompletion_invalid
                         Sample.get_chat_message_content Sample.env)
  = (0%Z, diagnostic_lines Sample.env
          ++ [Print "Connection Failed: Failed to create Azure OpenAI settings."]).
Proof.
  exact (connection_test_reports_constructor_failure
           Sample.AzureChatCompletion_invalid Sample.get_chat_message_content Sample.env
           (mkExc "ServiceInitializationError" "Failed to create Azure OpenAI settings.")
           eq_refl).
Defined.

Lemma connection_test_sends_one_request_witness :
  run_process (sample_test_main Sample.env)
  = (0%Z, (diagnostic_lines Sample.env
           ++ [Print "Service object created."; Print "Sending request..."])
          ++ [Print "Success! Response: You said: Hello"]).
Proof.
  exact (connection_test_sends_one_request
           Sample.AzureChatCompletion Sample.get_chat_message_content Sample.env
           (mkService "test" (Sample.env !! "AZURE_OPENAI_DEPLOYMENT_NAME")
                      (Sample.env !! "AZURE_OPENAI_ENDPOINT")
                      (Sample.env !! "AZURE_OPENAI_API_KEY") "2025-01-01-preview")
           (Ok (mkMsg Assistant "You said: Hello"))
           (mkWorld (diagnostic_lines Sample.env
                     ++ [Print "Service object created."; Print "Sending request..."])
                    [mkMsg User "Hello"])
           eq_refl eq_refl).
Defined.

Lemma chat_turn_records_the_reply_witness :
  sample_chat_turn Sample.kernel "list" world0
  = (Ok tt, mkWorld [Print ("Agent: The container holds a.csv and b.csv." +:+ nl)]
                    [mkMsg User "list"; mkMsg Assistant "call list_blobs";
                     mkMsg Tool "a.csv, b.csv";
                     mkMsg Assistant "The container holds a.csv and b.csv."]).
Proof.
  exact (proj1 (chat_turn_records_the_reply
                  Sample.get_chat_message_content sample_chat_appends
                  Sample.kernel Sample.service [] "list" world0
                  (mkMsg Assistant "The container holds a.csv and b.csv.")
                  (Sample.tool_round (user_said "list" world0))
                  eq_refl eq_refl)).
Defined.

Lemma system_message_stays_first_witness :
  forallb truthy ((Sample.env !!.) <$> openai_vars) = true
  /\ BlobStoragePlugin_init Sample.BlobServiceClient_new Sample.env world0
     = (Ok (Sample.plugin Sample.container), world0)
  /\ ([mkMsg System system_prompt]
        `prefix_of` history (snd (sample_main Sample.env ["hi"; "list"; "exit"] world0))).
Proof.
  assert (Ho : forallb truthy ((Sample.env !!.) <$> openai_vars) = true).
  { vm_compute. reflexivity. }
  assert (Hinit : BlobStoragePlugin_init Sample.BlobServiceClient_new Sample.env world0
                  = (Ok (Sample.plugin Sample.container), world0)).
  { vm_compute. reflexivity. }
  split; [exact Ho|]. split; [exact Hinit|].
  exact (system_message_stays_first
           Sample.BlobServiceClient_new Sample.AzureChatCompletion
           Sample.get_chat_message_content sample_chat_appends
           Sample.env ["hi"; "list"; "exit"] Sample.service
           (Sample.plugin Sample.container) world0 Ho eq_refl Hinit).
Defined.

Lemma user_lines_are_recorded_witness :
  turns ["hi"; "crash"; "list"; "quit"; "unread"] = ["hi"; "crash"; "list"]
  /\ exists added,
      history (snd (sample_chat_loop Sample.kernel
                      ["hi"; "crash"; "list"; "quit"; "unread"] world0))
      = history world0 ++ added
      /\ (mkMsg User <$> turns ["hi"; "crash"; "list"; "quit"; "unread"])
           `sublist_of` added.
Proof.
  split; [vm_compute; reflexivity|].
  exact (user_lines_are_recorded
           Sample.get_chat_message_content sample_chat_appends
           Sample.kernel Sample.service []
           ["hi"; "crash"; "list"; "quit"; "unread"] world0 eq_refl).
Defined.

Lemma diagnostics_read_five_characters_witness :
  slice_to 5 "0123456789abcdef" = slice_to 5 "01234-another-key"
  /\ diagnostics (<["AZURE_OPENAI_API_KEY" := "0123456789abcdef"]> Sample.env) world0
     = diagnostics (<["AZURE_OPENAI_API_KEY" := "01234-another-key"]> Sample.env) world0.
Proof.
  split; [reflexivity|].
  exact (diagnostics_read_five_characters Sample.env
           "0123456789abcdef" "01234-another-key" world0 eq_refl).
Defined.
